(** * krakend-etcd: the etcd service-discovery client of KrakenD

    A shallow embedding of the Go package [etcd] (files [config.go],
    [client.go] and the v3 client) and the properties its specification
    states about it.

    - Untyped configuration ([map[string]interface{}]) is a [gmap] from
      strings to dynamic values.
    - A Go call either returns or panics: [outcome].
    - The standard library and the etcd client libraries are reached through
      an environment record [Env]; the theorems hold for every environment.
    - [GetEntries] threads the state of the store explicitly.
    - [WatchPrefix] does not terminate in general and talks to a channel:
      it is an interaction tree over the events [watchE]. *)

From Stdlib Require Import ZArith List String Lia.
From stdpp Require Import base option gmap strings list.
From ITree Require Import ITree ITreeFacts Events.State Events.StateFacts.

#[local] Set Warnings "-register-all".
#[local] Open Scope Z_scope.

(** ** Go values and control *)

(** A Go call returns a value or panics (failed type assertion, nil
    dereference, index out of range). *)
Inductive outcome (A : Type) : Type :=
| Returned (a : A)
| Panicked.
Arguments Returned {A} a.
Arguments Panicked {A}.

Definition obind {A B} (m : outcome A) (k : A -> outcome B) : outcome B :=
  match m with
  | Returned a => k a
  | Panicked => Panicked
  end.

Notation "'do' x <~ m 'in' k" := (obind m (fun x => k))
  (at level 10, x name, m at level 100, k at level 200, only parsing).

(** [time.Duration]: a signed count of nanoseconds. *)
Definition Duration : Type := Z.
Definition Second : Duration := 1000000000.

(** [interface{}] values as a configuration parser produces them. *)
Inductive value : Type :=
| VNil
| VBool (b : bool)
| VNumber (n : Z)
| VString (s : string)
| VSlice (l : list value)
| VMap (m : gmap string value).

(** [error] values: the sentinels of the package, the error built by
    [parseDuration], and errors of the libraries underneath. *)
Inductive error : Type :=
| ErrNoConfig
| ErrBadConfig
| ErrNoMachines
| ErrNilClient
| ErrUnableToParse (v : value)
| ErrExternal (msg : string).

(** [context.Context] as the package builds and derives them. *)
Inductive Context : Type :=
| Background
| WithCancel (parent : Context)
| WithTimeout (parent : Context) (d : Duration).

(** A slice result that may be [nil]: [None] is the nil slice. *)
Definition slice_elems {A} (s : option (list A)) : list A :=
  match s with
  | Some l => l
  | None => []
  end.

(** ** The libraries underneath

    Only what the package touches of [crypto/tls], [crypto/x509], [net],
    [net/http] and the two etcd client libraries. *)

(** [[]byte] *)
Abbreviation bytes := (list Byte.byte).

Module x509.
(** A pool records the PEM blocks handed to it. *)
Definition CertPool : Type := list bytes.
Definition NewCertPool : CertPool := [].
Definition AppendCertsFromPEM (pool : CertPool) (pemCerts : bytes) : CertPool :=
  pool ++ [pemCerts].
End x509.

Module tls.
(** A loaded key pair, known by the two files it was read from. *)
Record Certificate : Type := mkCertificate {
  certFile : string;
  keyFile : string
}.
Record Config : Type := mkConfig {
  Certificates : list Certificate;
  RootCAs : option x509.CertPool
}.
End tls.

Module net.
Record Dialer : Type := mkDialer {
  Timeout : Duration;
  KeepAlive : Duration
}.
End net.

(** [github.com/coreos/etcd/client], the v2 generation. *)
Module etcd.
(** Either the transport the library ships, a package variable built
    without any reference to the caller's options, or an
    [http.Transport] with a TLS configuration and a dialer. *)
Inductive CancelableTransport : Type :=
| DefaultTransport
| HttpTransport (TLSClientConfig : tls.Config) (Dial : net.Dialer).

Record Config : Type := mkConfig {
  Endpoints : list string;
  Transport : CancelableTransport;
  HeaderTimeoutPerRequest : Duration
}.

(** A client is known by the configuration it was made from. *)
Record Client : Type := mkClient { config : Config }.

Variant KeysAPI : Type := NewKeysAPI (c : Client).

Record GetOptions : Type := mkGetOptions { Recursive : bool }.
Record WatcherOptions : Type := mkWatcherOptions {
  AfterIndex : Z;
  WatchRecursive : bool
}.

Inductive Node : Type := mkNode {
  Key : string;
  Value : string;
  Nodes : list Node
}.
(** The answer to a successful read; it always carries a node. *)
Record Response : Type := mkResponse { RNode : Node }.

Variant Watcher : Type :=
  mkWatcher (api : KeysAPI) (key : string) (opts : WatcherOptions).
End etcd.

(** [github.com/coreos/etcd/clientv3], the v3 generation. *)
Module etcdv3.
Record Config : Type := mkConfig {
  Endpoints : list string;
  DialTimeout : Duration;
  DialKeepAliveTime : Duration;
  DialKeepAliveTimeout : Duration;
  TLS : option tls.Config
}.

Record Client : Type := mkClient { config : Config }.

Variant OpOption : Type := WithPrefix.

Record KeyValue : Type := mkKeyValue {
  Key : bytes;
  Value : bytes
}.
Record GetResponse : Type := mkGetResponse {
  Kvs : list KeyValue;
  Count : Z
}.

Record WatchResponse : Type := mkWatchResponse { Events : list KeyValue }.

Variant WatchChan : Type :=
  mkWatchChan (c : Client) (ctx : Context) (key : string) (opt : OpOption).
End etcdv3.

(** What the package calls outside itself while it builds a client. *)
Record Env : Type := mkEnv {
  time_ParseDuration : string -> Duration + error;
  tls_LoadX509KeyPair : string -> string -> tls.Certificate + error;
  ioutil_ReadFile : string -> bytes + error;
  etcd_New : etcd.Config -> etcd.Client + error;
  etcdv3_New : etcdv3.Config -> etcdv3.Client + error
}.

(** ** config.go *)

Definition defaultTTL : Duration := 3 * Second.

Record ClientOptions : Type := mkClientOptions {
  Cert : string;
  Key : string;
  CACert : string;
  DialTimeout : Duration;
  DialKeepAlive : Duration;
  DialKeepAliveTimeout : Duration;
  HeaderTimeoutPerRequest : Duration
}.

(** Assignments to one field of an options value. *)
Definition set_Cert (s : string) (o : ClientOptions) : ClientOptions :=
  mkClientOptions s (Key o) (CACert o) (DialTimeout o) (DialKeepAlive o)
    (DialKeepAliveTimeout o) (HeaderTimeoutPerRequest o).
Definition set_Key (s : string) (o : ClientOptions) : ClientOptions :=
  mkClientOptions (Cert o) s (CACert o) (DialTimeout o) (DialKeepAlive o)
    (DialKeepAliveTimeout o) (HeaderTimeoutPerRequest o).
Definition set_CACert (s : string) (o : ClientOptions) : ClientOptions :=
  mkClientOptions (Cert o) (Key o) s (DialTimeout o) (DialKeepAlive o)
    (DialKeepAliveTimeout o) (HeaderTimeoutPerRequest o).
Definition set_DialTimeout (d : Duration) (o : ClientOptions) : ClientOptions :=
  mkClientOptions (Cert o) (Key o) (CACert o) d (DialKeepAlive o)
    (DialKeepAliveTimeout o) (HeaderTimeoutPerRequest o).
Definition set_DialKeepAlive (d : Duration) (o : ClientOptions) : ClientOptions :=
  mkClientOptions (Cert o) (Key o) (CACert o) (DialTimeout o) d
    (DialKeepAliveTimeout o) (HeaderTimeoutPerRequest o).
Definition set_DialKeepAliveTimeout (d : Duration) (o : ClientOptions) : ClientOptions :=
  mkClientOptions (Cert o) (Key o) (CACert o) (DialTimeout o) (DialKeepAlive o)
    d (HeaderTimeoutPerRequest o).
Definition set_HeaderTimeoutPerRequest (d : Duration) (o : ClientOptions) : ClientOptions :=
  mkClientOptions (Cert o) (Key o) (CACert o) (DialTimeout o) (DialKeepAlive o)
    (DialKeepAliveTimeout o) d.

(** [ClientOptions{}] *)
Definition zeroOptions : ClientOptions :=
  mkClientOptions "" "" "" 0 0 0 0.

Definition Namespace : string := "github_com/devopsfaith/krakend-etcd".

(** [value.(string)]: the unchecked assertion panics on any other type. *)
Definition assert_string (v : value) : outcome string :=
  match v with
  | VString s => Returned s
  | _ => Panicked
  end.

(** [v.(map[string]interface{})], unchecked. *)
Definition assert_map (v : value) : outcome (gmap string value) :=
  match v with
  | VMap m => Returned m
  | _ => Panicked
  end.

Definition parseVersion (cfg : gmap string value) : outcome (string * option error) :=
  match cfg !! "client_version" with
  | None => Returned ("v2", None)
  | Some value =>
      do result <~ assert_string value in
      let result :=
        if decide (result ≠ "v2" ∧ result ≠ "v3") then "v2" else result in
      Returned (result, None)
  end.

(** The [for _, m := range ms] loop of [parseMachines]: entries that are
    strings are appended, the others are passed over. *)
Fixpoint appendMachines (result : list string) (ms : list value) : list string :=
  match ms with
  | [] => result
  | m :: ms' =>
      match m with
      | VString machine => appendMachines (result ++ [machine]) ms'
      | _ => appendMachines result ms'
      end
  end.

Definition parseMachines (cfg : gmap string value) : list string * option error :=
  let result := [] in
  match cfg !! "machines" with
  | None => (result, Some ErrNoMachines)
  | Some machines =>
      match machines with
      | VSlice ms =>
          let result := appendMachines result ms in
          if decide (length result = 0%nat) then (result, Some ErrNoMachines)
          else (result, None)
      | _ => (result, Some ErrNoMachines)
      end
  end.

Section Parsing.

Variable env : Env.

Definition parseDuration (v : value) : Duration + error :=
  match v with
  | VString s => time_ParseDuration env s
  | _ => inr (ErrUnableToParse v)
  end.

Definition parseOptions (cfg : gmap string value) : outcome ClientOptions :=
  let options := zeroOptions in
  match cfg !! "options" with
  | None => Returned options
  | Some v =>
      do tmp <~ assert_map v in
      do options <~
        match tmp !! "cert" with
        | Some o => do s <~ assert_string o in Returned (set_Cert s options)
        | None => Returned options
        end in
      do options <~
        match tmp !! "key" with
        | Some o => do s <~ assert_string o in Returned (set_Key s options)
        | None => Returned options
        end in
      do options <~
        match tmp !! "cacert" with
        | Some o => do s <~ assert_string o in Returned (set_CACert s options)
        | None => Returned options
        end in
      let options :=
        match tmp !! "dial_timeout" with
        | Some o =>
            match parseDuration o with
            | inl d => set_DialTimeout d options
            | inr _ => options
            end
        | None => options
        end in
      let options :=
        match tmp !! "dial_keepalive" with
        | Some o =>
            match parseDuration o with
            | inl d => set_DialKeepAlive d options
            | inr _ => options
            end
        | None => options
        end in
      let options :=
        match tmp !! "header_timeout" with
        | Some o =>
            match parseDuration o with
            | inl d => set_HeaderTimeoutPerRequest d options
            | inr _ => options
            end
        | None => options
        end in
      Returned options
  end.

End Parsing.

(** ** The store and the signal channel

    [GetEntries] reads the store; the store may answer differently from one
    call to the next, so its state [Store] is threaded through. *)

Record Registry (Store : Type) : Type := mkRegistry {
  (** [KeysAPI.Get] of the v2 library. *)
  KeysAPI_Get : etcd.KeysAPI -> Context -> string -> etcd.GetOptions ->
                Store -> (etcd.Response + error) * Store;
  (** [Client.Get] of the v3 library. *)
  Client_Get : etcdv3.Client -> Context -> string -> etcdv3.OpOption ->
               Store -> (etcdv3.GetResponse + error) * Store
}.
Arguments KeysAPI_Get {Store} _ _ _ _ _ _.
Arguments Client_Get {Store} _ _ _ _ _ _.

(** [chan struct{}] *)
Variant chan : Type := mkChan (id : nat).

(** What [WatchPrefix] does to its surroundings. *)
Variant watchE : Type -> Type :=
| KeysAPI_Watcher (api : etcd.KeysAPI) (key : string)
    (opts : etcd.WatcherOptions) : watchE etcd.Watcher
| Watcher_Next (w : etcd.Watcher) (ctx : Context) : watchE (etcd.Response + error)
| Client_Watch (c : etcdv3.Client) (ctx : Context) (key : string)
    (opt : etcdv3.OpOption) : watchE etcdv3.WatchChan
(** One turn of [range watch]: the next response, or [None] once the
    channel is closed. *)
| WatchChan_Range (w : etcdv3.WatchChan) : watchE (option etcdv3.WatchResponse)
(** [ch <- struct{}{}], completed when the receiver has taken the value. *)
| Chan_Send (ch : chan) : watchE unit.

Notation "'run' x <~ t 'in' k" := (ITree.bind t (fun x => k))
  (at level 10, x name, t at level 100, k at level 200, only parsing).

(** [make([]string, n)] *)
Definition make_strings (n : Z) : outcome (list string) :=
  if decide (n < 0) then Panicked
  else Returned (replicate (Z.to_nat n) EmptyString).

(** [for i, x := range xs { entries[i] = f x }], started at index [i]. *)
Fixpoint assign_each {A} (f : A -> string) (i : nat) (xs : list A)
    (entries : list string) : outcome (list string) :=
  match xs with
  | [] => Returned entries
  | x :: xs' =>
      if decide (i < length entries)%nat
      then assign_each f (S i) xs' (<[i := f x]> entries)
      else Panicked
  end.

(** ** client.go: the v2 client *)

Module client.

(** [type client struct]. [keysAPI] is an interface value and may be nil. *)
Record t : Type := mk {
  keysAPI : option etcd.KeysAPI;
  ctx : Context
}.

Section Methods.
Context {Store : Type} (reg : Registry Store).

Definition GetEntries (c : t) (key : string) (s : Store)
  : outcome (option (list string) * option error) * Store :=
  match keysAPI c with
  | None => (Panicked, s)
  | Some api =>
      let '(r, s) := KeysAPI_Get reg api (ctx c) key (etcd.mkGetOptions true) s in
      match r with
      | inr err => (Returned (None, Some err), s)
      | inl resp =>
          let node := etcd.RNode resp in
          if decide (length (etcd.Nodes node) = 0%nat ∧ etcd.Value node ≠ "")
          then (Returned (Some [etcd.Value node], None), s)
          else
            (do entries <~ make_strings (Z.of_nat (length (etcd.Nodes node))) in
             do entries <~ assign_each etcd.Value 0 (etcd.Nodes node) entries in
             Returned (Some entries, None), s)
      end
  end.
End Methods.

(** The body of [for { ... }]: [inr] leaves the loop. *)
Definition WatchPrefix_body (c : t) (watch : etcd.Watcher) (ch : chan)
    (_ : unit) : itree watchE (unit + outcome unit) :=
  run r <~ ITree.trigger (Watcher_Next watch (ctx c)) in
  match r with
  | inr _ => Ret (inr (Returned tt))
  | inl _ => run _ <~ ITree.trigger (Chan_Send ch) in Ret (inl tt)
  end.

Definition WatchPrefix (c : t) (prefix : string) (ch : chan)
  : itree watchE (outcome unit) :=
  match keysAPI c with
  | None => Ret Panicked
  | Some api =>
      run watch <~ ITree.trigger
                     (KeysAPI_Watcher api prefix (etcd.mkWatcherOptions 0 true)) in
      run _ <~ ITree.trigger (Chan_Send ch) in
      ITree.iter (WatchPrefix_body c watch ch) tt
  end.

End client.

(** ** The v3 client *)

Module clientv3.

(** [type clientv3 struct]. [client] is a pointer and may be nil. *)
Record t : Type := mk {
  client : option etcdv3.Client;
  ctx : Context;
  timeout : Duration
}.

(** [string(ev.Value[:])] *)
Definition entry (ev : etcdv3.KeyValue) : string :=
  string_of_list_byte (etcdv3.Value ev).

Section Methods.
Context {Store : Type} (reg : Registry Store).

Definition GetEntries (c : t) (key : string) (s : Store)
  : outcome (option (list string) * option error) * Store :=
  match client c with
  | None => (Returned (None, Some ErrNilClient), s)
  | Some cl =>
      let timeoutCtx := WithTimeout (ctx c) (timeout c) in
      let '(r, s) := Client_Get reg cl timeoutCtx key etcdv3.WithPrefix s in
      match r with
      | inr err => (Returned (None, Some err), s)
      | inl resp =>
          if decide (length (etcdv3.Kvs resp) = 0%nat
                     ∨ etcdv3.Count resp ≠ Z.of_nat (length (etcdv3.Kvs resp)))
          then (Returned (None, None), s)
          else
            (do entries <~ make_strings (etcdv3.Count resp) in
             do entries <~ assign_each entry 0 (etcdv3.Kvs resp) entries in
             Returned (Some entries, None), s)
      end
  end.
End Methods.

(** The body of [for _ = range watch { ... }]: [inr] leaves the loop. *)
Definition WatchPrefix_body (watch : etcdv3.WatchChan) (ch : chan)
    (_ : unit) : itree watchE (unit + outcome unit) :=
  run r <~ ITree.trigger (WatchChan_Range watch) in
  match r with
  | None => Ret (inr (Returned tt))
  | Some _ => run _ <~ ITree.trigger (Chan_Send ch) in Ret (inl tt)
  end.

Definition WatchPrefix (c : t) (prefix : string) (ch : chan)
  : itree watchE (outcome unit) :=
  match client c with
  | None => Ret (Returned tt)
  | Some cl =>
      run watch <~ ITree.trigger
                     (Client_Watch cl (ctx c) prefix etcdv3.WithPrefix) in
      run _ <~ ITree.trigger (Chan_Send ch) in
      ITree.iter (WatchPrefix_body watch ch) tt
  end.

End clientv3.

(** A value of the interface [Client]: one of its two implementations.
    Where a nil interface value can be returned the type is
    [option Client]. *)
Inductive Client : Type :=
| ClientV2 (c : client.t)
| ClientV3 (c : clientv3.t).

Section Constructors.

Variable env : Env.

(** Lines 24-32 of [NewClient]: the three durations left at zero take
    [defaultTTL]. *)
Definition NewClient_options (options : ClientOptions) : ClientOptions :=
  let options :=
    if decide (DialTimeout options = 0)
    then set_DialTimeout defaultTTL options else options in
  let options :=
    if decide (DialKeepAlive options = 0)
    then set_DialKeepAlive defaultTTL options else options in
  let options :=
    if decide (HeaderTimeoutPerRequest options = 0)
    then set_HeaderTimeoutPerRequest defaultTTL options else options in
  options.

(** Lines 34-57 of [NewClient], on the options as defaulted: the
    transport, or the error of the key pair. *)
Definition NewClient_transport (options : ClientOptions)
  : etcd.CancelableTransport + error :=
  let transport := etcd.DefaultTransport in
  if decide (Cert options ≠ "" ∧ Key options ≠ "") then
    match tls_LoadX509KeyPair env (Cert options) (Key options) with
    | inr err => inr err
    | inl tlsCert =>
        let tlsCfg := tls.mkConfig [tlsCert] None in
        let tlsCfg :=
          match ioutil_ReadFile env (CACert options) with
          | inl caCertCt =>
              let caCertPool := x509.NewCertPool in
              let caCertPool := x509.AppendCertsFromPEM caCertPool caCertCt in
              tls.mkConfig (tls.Certificates tlsCfg) (Some caCertPool)
          | inr _ => tlsCfg
          end in
        inl (etcd.HttpTransport tlsCfg
               (net.mkDialer (DialTimeout options) (DialKeepAlive options)))
    end
  else inl transport.

(** Lines 59-63: the configuration handed to [etcd.New]. *)
Definition NewClient_config (machines : list string) (options : ClientOptions)
  : etcd.Config + error :=
  let options := NewClient_options options in
  match NewClient_transport options with
  | inr err => inr err
  | inl transport =>
      inl (etcd.mkConfig machines transport (HeaderTimeoutPerRequest options))
  end.

Definition NewClient (ctx : Context) (machines : list string)
    (options : ClientOptions) : option Client * option error :=
  match NewClient_config machines options with
  | inr err => (None, Some err)
  | inl cfg =>
      match etcd_New env cfg with
      | inr err => (None, Some err)
      | inl ce =>
          (Some (ClientV2 (client.mk (Some (etcd.NewKeysAPI ce)) ctx)), None)
      end
  end.

(** Lines 24-32 of [NewClientV3]. *)
Definition NewClientV3_options (options : ClientOptions) : ClientOptions :=
  let options :=
    if decide (DialTimeout options = 0)
    then set_DialTimeout defaultTTL options else options in
  let options :=
    if decide (DialKeepAlive options = 0)
    then set_DialKeepAlive defaultTTL options else options in
  let options :=
    if decide (HeaderTimeoutPerRequest options = 0)
    then set_HeaderTimeoutPerRequest defaultTTL options else options in
  options.

(** Lines 34-48 of [NewClientV3]: [tlsCfg], nil without a key pair. *)
Definition NewClientV3_tls (options : ClientOptions)
  : option tls.Config + error :=
  let tlsCfg := None in
  if decide (Cert options ≠ "" ∧ Key options ≠ "") then
    match tls_LoadX509KeyPair env (Cert options) (Key options) with
    | inr err => inr err
    | inl tlsCert =>
        let tlsCfg := tls.mkConfig [tlsCert] None in
        let tlsCfg :=
          match ioutil_ReadFile env (CACert options) with
          | inl caCertCt =>
              let caCertPool := x509.NewCertPool in
              let caCertPool := x509.AppendCertsFromPEM caCertPool caCertCt in
              tls.mkConfig (tls.Certificates tlsCfg) (Some caCertPool)
          | inr _ => tlsCfg
          end in
        inl (Some tlsCfg)
    end
  else inl tlsCfg.

(** Lines 50-56: the configuration handed to [etcdv3.New]. *)
Definition NewClientV3_config (machines : list string) (options : ClientOptions)
  : etcdv3.Config + error :=
  let options := NewClientV3_options options in
  match NewClientV3_tls options with
  | inr err => inr err
  | inl tlsCfg =>
      inl (etcdv3.mkConfig machines (DialTimeout options) (DialKeepAlive options)
             (HeaderTimeoutPerRequest options) tlsCfg)
  end.

Definition NewClientV3 (ctx : Context) (machines : list string)
    (options : ClientOptions) : option Client * option error :=
  match NewClientV3_config machines options with
  | inr err => (None, Some err)
  | inl cfg =>
      match etcdv3_New env cfg with
      | inr err => (None, Some err)
      | inl ce =>
          (Some (ClientV3
                   (clientv3.mk (Some ce) ctx
                      (HeaderTimeoutPerRequest (NewClientV3_options options)))),
           None)
      end
  end.

(** [New]: the factory. [e] is the [config.ExtraConfig] of the gateway. *)
Definition New (ctx : Context) (e : gmap string value)
  : outcome (option Client * option error) :=
  match e !! Namespace with
  | None => Returned (None, Some ErrNoConfig)
  | Some v =>
      match v with
      | VMap tmp =>
          match parseMachines tmp with
          | (_, Some err) => Returned (None, Some err)
          | (machines, None) =>
              do ver <~ parseVersion tmp in
              match ver with
              | (_, Some err) => Returned (None, Some err)
              | (version, None) =>
                  if decide (version = "v3") then
                    do options <~ parseOptions env tmp in
                    Returned (NewClientV3 ctx machines options)
                  else
                    do options <~ parseOptions env tmp in
                    Returned (NewClient ctx machines options)
              end
          end
      | _ => Returned (None, Some ErrBadConfig)
      end
  end.

End Constructors.

(** ** Callers and surroundings used to state the properties *)

(** [n] successive calls of the v3 [GetEntries] by one caller, the store
    moving on from call to call. *)
Fixpoint GetEntries_repeated {Store} (reg : Registry Store) (c : clientv3.t)
    (key : string) (n : nat) (s : Store)
  : list (outcome (option (list string) * option error)) * Store :=
  match n with
  | O => ([], s)
  | S n' =>
      let '(r, s1) := clientv3.GetEntries reg c key s in
      let '(rs, s2) := GetEntries_repeated reg c key n' s1 in
      (r :: rs, s2)
  end.

(** A v3 read is inconsistent when it carries no record or when its count
    is not the number of records it carries. *)
Definition inconsistent (resp : etcdv3.GetResponse) : Prop :=
  etcdv3.Kvs resp = [] ∨ etcdv3.Count resp ≠ Z.of_nat (length (etcdv3.Kvs resp)).

(** The string entries of a sequence of dynamic values, in order. *)
Definition strings_of (ms : list value) : list string :=
  omap (fun m => match m with VString s => Some s | _ => None end) ms.

(** Absent, or present with a string. *)
Definition string_or_absent (tmp : gmap string value) (k : string) : Prop :=
  match tmp !! k with
  | None => True
  | Some (VString _) => True
  | Some _ => False
  end.

(** The three fields of the options block that hold file names are
    strings, and the block itself, when present, is a map. *)
Definition files_well_typed (cfg : gmap string value) : Prop :=
  match cfg !! "options" with
  | None => True
  | Some (VMap tmp) =>
      string_or_absent tmp "cert" ∧ string_or_absent tmp "key"
      ∧ string_or_absent tmp "cacert"
  | Some _ => False
  end.



(** What an observer of one [WatchPrefix] call sees, in order. *)
Inductive observation : Type :=
| Signal (ch : chan)
| Change (r : etcd.Response)
| Batch (r : etcdv3.WatchResponse).

(** The surroundings of a [WatchPrefix] call: what the v2 watcher will
    answer to successive [Next] calls, what the v3 watch channel will
    deliver before it is closed, and what has been observed so far. A
    receiver is always ready on the signal channel. *)
Record Wire : Type := mkWire {
  answers : list (etcd.Response + error);
  deliveries : list etcdv3.WatchResponse;
  observed : list observation
}.

Definition wire : forall T, watchE T -> Monads.stateT Wire (itree void1) T :=
  fun _ e w =>
    match e with
    | KeysAPI_Watcher api key opts => Ret (w, etcd.mkWatcher api key opts)
    | Watcher_Next _ _ =>
        match answers w with
        | [] => Ret (w, inr (ErrExternal "context canceled"))
        | inl r :: rest =>
            Ret (mkWire rest (deliveries w) (observed w ++ [Change r]), inl r)
        | inr err :: rest =>
            Ret (mkWire rest (deliveries w) (observed w), inr err)
        end
    | Client_Watch c ctx key opt => Ret (w, etcdv3.mkWatchChan c ctx key opt)
    | WatchChan_Range _ =>
        match deliveries w with
        | [] => Ret (w, None)
        | r :: rest =>
            Ret (mkWire (answers w) rest (observed w ++ [Batch r]), Some r)
        end
    | Chan_Send ch =>
        Ret (mkWire (answers w) (deliveries w) (observed w ++ [Signal ch]), tt)
    end.

(** The changes a v2 watcher reports before its first error, and what is
    left of its answers once the loop has stopped on that error. *)
Fixpoint changes_before_error (l : list (etcd.Response + error)) : list etcd.Response :=
  match l with
  | inl r :: rest => r :: changes_before_error rest
  | _ => []
  end.

Fixpoint answers_after_error (l : list (etcd.Response + error))
  : list (etcd.Response + error) :=
  match l with
  | inl _ :: rest => answers_after_error rest
  | inr _ :: rest => rest
  | [] => []
  end.

(** The duration an entry of the options block leaves in its field. *)
Definition duration_left (env : Env) (entry : option value) : Duration :=
  match entry with
  | Some v => match parseDuration env v with inl d => d | inr _ => 0 end
  | None => 0
  end.

(** ** Sample surroundings *)

(** A small environment: two durations parse, one key pair and one CA
    file exist, and the libraries refuse an empty endpoint list. *)
Definition sample_env : Env :=
  mkEnv
    (fun s => if decide (s = "2s") then inl (2 * Second)
              else if decide (s = "0s") then inl 0
              else inr (ErrExternal "time: invalid duration"))
    (fun certFile keyFile =>
       if decide (certFile = "client.crt" /\ keyFile = "client.key")
       then inl (tls.mkCertificate certFile keyFile)
       else inr (ErrExternal "open: no such file or directory"))
    (fun name =>
       if decide (name = "ca.pem") then inl (list_byte_of_string "CERTIFICATE")
       else inr (ErrExternal "open: no such file or directory"))
    (fun cfg =>
       match etcd.Endpoints cfg with
       | [] => inr (ErrExternal "client: no endpoints available")
       | _ => inl (etcd.mkClient cfg)
       end)
    (fun cfg =>
       match etcdv3.Endpoints cfg with
       | [] => inr (ErrExternal "etcdclient: no available endpoints")
       | _ => inl (etcdv3.mkClient cfg)
       end).

Definition sample_machines : list string := ["http://10.0.0.9:2379"].

(** The gateway's extra configuration holding one block for this package. *)
Definition extra (block : gmap string value) : gmap string value :=
  {[ Namespace := VMap block ]}.

Definition numeric_version_block : gmap string value :=
  <["client_version" := VNumber 3]>
    {[ "machines" := VSlice [VString "http://10.0.0.9:2379"] ]}.

Definition unknown_version_block : gmap string value :=
  <["client_version" := VString "v4"]>
    {[ "machines" := VSlice [VString "http://10.0.0.9:2379"] ]}.

Definition mixed_machines : list value :=
  [VNumber 7; VString "http://10.0.0.9:2379"; VNil; VString "http://10.0.0.8:2379"].


Definition dial_options (dt ka : Duration) : ClientOptions :=
  mkClientOptions "" "" "" dt ka 0 0.

Definition tls_options (cert key ca : string) : ClientOptions :=
  mkClientOptions cert key ca (2 * Second) (2 * Second) 0 (2 * Second).

(** Options with a header timeout of one nanosecond and a
    [DialKeepAliveTimeout] of five seconds, and the v3 configuration they
    lead to. *)
Definition short_header_options : ClientOptions :=
  mkClientOptions "" "" "" 0 0 (5 * Second) 1.

Definition short_header_config : etcdv3.Config :=
  etcdv3.mkConfig sample_machines (3 * Second) (3 * Second) 1 None.

Definition kv_a : etcdv3.KeyValue :=
  etcdv3.mkKeyValue (list_byte_of_string "/services/a")
    (list_byte_of_string "http://10.0.0.1:8080").

Definition kv_b : etcdv3.KeyValue :=
  etcdv3.mkKeyValue (list_byte_of_string "/services/b")
    (list_byte_of_string "http://10.0.0.2:8080").

Definition leaf_a : etcd.Node := etcd.mkNode "/services/a" "http://10.0.0.1:8080" [].
Definition leaf_b : etcd.Node := etcd.mkNode "/services/b" "http://10.0.0.2:8080" [].
Definition dir_node : etcd.Node := etcd.mkNode "/services" "" [leaf_a; leaf_b].

(** One record, yet a count of two. *)
Definition stale_read : etcdv3.GetResponse := etcdv3.mkGetResponse [kv_a] 2.
Definition healthy_read : etcdv3.GetResponse := etcdv3.mkGetResponse [kv_a; kv_b] 2.

(** Stores whose state counts the reads they have served. *)
Definition stale_store : Registry nat :=
  mkRegistry nat
    (fun _ _ _ _ n => (inl (etcd.mkResponse leaf_a), S n))
    (fun _ _ _ _ n => (inl stale_read, S n)).

Definition healthy_store : Registry nat :=
  mkRegistry nat
    (fun _ _ _ _ n => (inl (etcd.mkResponse dir_node), S n))
    (fun _ _ _ _ n => (inl healthy_read, S n)).

(** A store that fails a v3 read when the caller allows it less than a
    second. *)
Definition slow_store : Registry nat :=
  mkRegistry nat
    (fun _ _ _ _ n => (inl (etcd.mkResponse leaf_a), S n))
    (fun _ ctx _ _ n =>
       match ctx with
       | WithTimeout _ d =>
           if decide (d < Second)
           then (inr (ErrExternal "context deadline exceeded"), S n)
           else (inl healthy_read, S n)
       | _ => (inl healthy_read, S n)
       end).

Definition sample_conn : etcdv3.Client :=
  etcdv3.mkClient
    (etcdv3.mkConfig sample_machines defaultTTL defaultTTL defaultTTL None).

Definition sample_api : etcd.KeysAPI :=
  etcd.NewKeysAPI
    (etcd.mkClient (etcd.mkConfig sample_machines etcd.DefaultTransport defaultTTL)).

(** ** Calls through the interface

    A method call on a [Client] value goes to the implementation the
    value holds. *)

Definition Client_GetEntries {Store} (reg : Registry Store) (c : Client)
    (key : string) (s : Store)
  : outcome (option (list string) * option error) * Store :=
  match c with
  | ClientV2 c2 => client.GetEntries reg c2 key s
  | ClientV3 c3 => clientv3.GetEntries reg c3 key s
  end.

Definition Client_WatchPrefix (c : Client) (prefix : string) (ch : chan)
  : itree watchE (outcome unit) :=
  match c with
  | ClientV2 c2 => client.WatchPrefix c2 prefix ch
  | ClientV3 c3 => clientv3.WatchPrefix c3 prefix ch
  end.

(** A v2 answer with everything below the children of its node cut off. *)
Definition prune (resp : etcd.Response) : etcd.Response :=
  let node := etcd.RNode resp in
  etcd.mkResponse
    (etcd.mkNode (etcd.Key node) (etcd.Value node)
       (List.map (fun child => etcd.mkNode (etcd.Key child) (etcd.Value child) [])
          (etcd.Nodes node))).

(** The file name an entry of the options block leaves in its field. *)
Definition name_left (entry : option value) : string :=
  match entry with
  | Some (VString s) => s
  | _ => EmptyString
  end.

(** ** More sample surroundings *)

Definition v3_block : gmap string value :=
  <["client_version" := VString "v3"]>
    (<["options" := VMap (<["header_timeout" := VString "2s"]>
                          (<["cacert" := VString "ca.pem"]> ∅))]>
       {[ "machines" := VSlice mixed_machines ]}).

Definition full_tls_options : ClientOptions :=
  mkClientOptions "client.crt" "client.key" "ca.pem" 0 (-1) 0 (2 * Second).

(** A directory whose only child is itself a directory holding a leaf. *)
Definition nested_node : etcd.Node :=
  etcd.mkNode "/services" "" [etcd.mkNode "/services/eu" "" [leaf_a]].

Definition nested_store : Registry nat :=
  mkRegistry nat
    (fun _ _ _ _ n => (inl (etcd.mkResponse nested_node), S n))
    (fun _ _ _ _ n => (inl (etcdv3.mkGetResponse [kv_a] (-1)), S n)).

Definition pruned_store : Registry nat :=
  mkRegistry nat
    (fun _ _ _ _ n => (inl (prune (etcd.mkResponse nested_node)), S n))
    (fun _ _ _ _ n => (inl healthy_read, S n)).

Definition failing_store : Registry nat :=
  mkRegistry nat
    (fun _ _ _ _ n => (inr (ErrExternal "100: Key not found"), S n))
    (fun _ _ _ _ n => (inr (ErrExternal "etcdserver: request timed out"), S n)).

(** An environment whose duration parser also knows a negative duration. *)
Definition signed_env : Env :=
  mkEnv
    (fun s => if decide (s = "-1s") then inl (- Second)
              else time_ParseDuration sample_env s)
    (tls_LoadX509KeyPair sample_env) (ioutil_ReadFile sample_env)
    (etcd_New sample_env) (etcdv3_New sample_env).

Definition timeouts_map : gmap string value :=
  <["dial_timeout" := VString "2s"]>
    (<["dial_keepalive" := VString "-1s"]>
       (<["header_timeout" := VString "2s"]> ∅)).

Definition timeouts_block : gmap string value :=
  {[ "options" := VMap timeouts_map ]}.

(** The client the factory builds from [v3_block] in [sample_env]. *)
Definition v3_block_client : Client :=
  ClientV3
    (clientv3.mk
       (Some (etcdv3.mkClient
                (etcdv3.mkConfig ["http://10.0.0.9:2379"; "http://10.0.0.8:2379"]
                   (3 * Second) (3 * Second) (2 * Second) None)))
       Background (2 * Second)).

(** ** Runs of a watch

    A finite run of an interaction tree: the events it performed, each
    with the answer it got, up to some point. Nothing is assumed of the
    surroundings: every answer is possible, and a run may stop anywhere,
    for instance at a send nobody receives. *)

Variant occurrence : Type :=
| Occurs {T : Type} (e : watchE T) (x : T).

Inductive trace_of {R : Type} : itree watchE R -> list occurrence -> Prop :=
| trace_stop t : trace_of t []
| trace_tau t t' tr :
    observe t = TauF t' -> trace_of t' tr -> trace_of t tr
| trace_vis t T (e : watchE T) (k : T -> itree watchE R) (x : T) tr :
    observe t = VisF e k -> trace_of (k x) tr -> trace_of t (Occurs e x :: tr).

(** A completed send on the signal channel. *)
Definition is_signal (o : occurrence) : bool :=
  match o with
  | Occurs e _ => match e with Chan_Send _ => true | _ => false end
  end.

(** A notification taken from the store: a v2 [Next] that answered
    without error, or a v3 response received from the watch channel. *)
Definition is_notification (o : occurrence) : bool :=
  match o with
  | @Occurs T e x =>
      match e in watchE T return T -> bool with
      | Watcher_Next _ _ => fun x => match x with inl _ => true | inr _ => false end
      | WatchChan_Range _ => fun x => match x with Some _ => true | None => false end
      | _ => fun _ => false
      end x
  end.

Definition signals (tr : list occurrence) : nat := length (filter is_signal tr).

Definition notifications (tr : list occurrence) : nat :=
  length (filter is_notification tr).

(** A run of a v3 watch that has taken one notification and signalled it. *)
Definition sample_watch : etcdv3.WatchChan :=
  etcdv3.mkWatchChan sample_conn Background "/services" etcdv3.WithPrefix.

Definition sample_run : list occurrence :=
  [Occurs (Client_Watch sample_conn Background "/services" etcdv3.WithPrefix)
     sample_watch;
   Occurs (Chan_Send (mkChan 1)) tt;
   Occurs (WatchChan_Range sample_watch) (Some (etcdv3.mkWatchResponse [kv_a]));
   Occurs (Chan_Send (mkChan 1)) tt].

(** An options block with one entry only, a negative keep-alive. *)
Definition keepalive_only_map : gmap string value :=
  {[ "dial_keepalive" := VString "-1s" ]}.

Definition keepalive_only_block : gmap string value :=
  {[ "options" := VMap keepalive_only_map ]}.

(** The values of all keys found, recursively, underneath a node, as the
    comment on [GetEntries] in the interface [Client] has it: a node
    without children is a key and holds its value, or nothing when the
    value is empty; a node with children is a directory and holds what
    its children hold, in the order of the store. *)
Fixpoint values_under (n : etcd.Node) : list string :=
  match etcd.Nodes n with
  | [] => if decide (etcd.Value n = EmptyString) then [] else [etcd.Value n]
  | children => flat_map values_under children
  end.

(** ** Answers with their pointers

    The answers of the two libraries are built of pointers: the node of
    a v2 [Response] is a [*Node], the children of a node are a
    [[]*Node], the records of a v3 [GetResponse] are a [[]*KeyValue].
    [GetEntries] follows them without a check. Here the pointers are
    kept, [None] being nil, and the two methods are embedded once more
    with every dereference written out; on answers without a nil pointer
    they are the methods above. *)

(** Following a pointer: nil panics. *)
Definition deref {A} (p : option A) : outcome A :=
  match p with
  | Some a => Returned a
  | None => Panicked
  end.

(** [for i, x := range xs { entries[i] = f x }] over pointers [x], each
    followed to reach its field, started at index [i]. *)
Fixpoint assign_each_deref {A} (f : A -> string) (i : nat) (xs : list (option A))
    (entries : list string) : outcome (list string) :=
  match xs with
  | [] => Returned entries
  | x :: xs' =>
      do a <~ deref x in
      if decide (i < length entries)%nat
      then assign_each_deref f (S i) xs' (<[i := f a]> entries)
      else Panicked
  end.

Module ptr.

Inductive Node : Type := mkNode {
  Key : string;
  Value : string;
  Nodes : list (option Node)
}.

Record Response : Type := mkResponse { RNode : option Node }.

Record GetResponse : Type := mkGetResponse {
  Kvs : list (option etcdv3.KeyValue);
  Count : Z
}.

Record Registry (Store : Type) : Type := mkRegistry {
  KeysAPI_Get : etcd.KeysAPI -> Context -> string -> etcd.GetOptions ->
                Store -> (Response + error) * Store;
  Client_Get : etcdv3.Client -> Context -> string -> etcdv3.OpOption ->
               Store -> (GetResponse + error) * Store
}.
Arguments KeysAPI_Get {Store} _ _ _ _ _ _.
Arguments Client_Get {Store} _ _ _ _ _ _.

Section Methods.
Context {Store : Type} (reg : Registry Store).

(** [(c *client) GetEntries], client.go:75-93. *)
Definition client_GetEntries (c : client.t) (key : string) (s : Store)
  : outcome (option (list string) * option error) * Store :=
  match client.keysAPI c with
  | None => (Panicked, s)
  | Some api =>
      let '(r, s) :=
        KeysAPI_Get reg api (client.ctx c) key (etcd.mkGetOptions true) s in
      match r with
      | inr err => (Returned (None, Some err), s)
      | inl resp =>
          (do node <~ deref (RNode resp) in
           if decide (length (Nodes node) = 0%nat ∧ Value node ≠ "")
           then Returned (Some [Value node], None)
           else
             do entries <~ make_strings (Z.of_nat (length (Nodes node))) in
             do entries <~ assign_each_deref Value 0 (Nodes node) entries in
             Returned (Some entries, None), s)
      end
  end.

(** [(c *clientv3) GetEntries], lines 69-96 of the v3 client. *)
Definition clientv3_GetEntries (c : clientv3.t) (key : string) (s : Store)
  : outcome (option (list string) * option error) * Store :=
  match clientv3.client c with
  | None => (Returned (None, Some ErrNilClient), s)
  | Some cl =>
      let timeoutCtx := WithTimeout (clientv3.ctx c) (clientv3.timeout c) in
      let '(r, s) := Client_Get reg cl timeoutCtx key etcdv3.WithPrefix s in
      match r with
      | inr err => (Returned (None, Some err), s)
      | inl resp =>
          if decide (length (Kvs resp) = 0%nat
                     ∨ Count resp ≠ Z.of_nat (length (Kvs resp)))
          then (Returned (None, None), s)
          else
            (do entries <~ make_strings (Count resp) in
             do entries <~ assign_each_deref clientv3.entry 0 (Kvs resp) entries in
             Returned (Some entries, None), s)
      end
  end.

(** The call through the interface. *)
Definition Client_GetEntries (c : Client) (key : string) (s : Store)
  : outcome (option (list string) * option error) * Store :=
  match c with
  | ClientV2 c2 => client_GetEntries c2 key s
  | ClientV3 c3 => clientv3_GetEntries c3 key s
  end.

End Methods.

(** An answer without a nil pointer, with its pointers. *)
Fixpoint of_node (n : etcd.Node) : Node :=
  mkNode (etcd.Key n) (etcd.Value n)
    (List.map (fun child => Some (of_node child)) (etcd.Nodes n)).

Definition of_response (resp : etcd.Response) : Response :=
  mkResponse (Some (of_node (etcd.RNode resp))).

Definition of_get_response (resp : etcdv3.GetResponse) : GetResponse :=
  mkGetResponse (List.map Some (etcdv3.Kvs resp)) (etcdv3.Count resp).

Definition of_answer {A B} (f : A -> B) (r : A + error) : B + error :=
  match r with
  | inl a => inl (f a)
  | inr err => inr err
  end.

(** The v2 answer holds a nil pointer that [GetEntries] follows: its
    node, or one of the children of its node. *)
Definition v2_nil (resp : Response) : Prop :=
  match RNode resp with
  | None => True
  | Some node => None ∈ Nodes node
  end.

(** The v3 answer holds a nil record. *)
Definition v3_nil (resp : GetResponse) : Prop := None ∈ Kvs resp.

End ptr.

(** A store whose answers hold no nil pointer, with its pointers. *)
Definition with_pointers {Store} (reg : Registry Store) : ptr.Registry Store :=
  ptr.mkRegistry Store
    (fun api ctx key opts s =>
       let '(r, s') := KeysAPI_Get reg api ctx key opts s in
       (ptr.of_answer ptr.of_response r, s'))
    (fun cl ctx key opt s =>
       let '(r, s') := Client_Get reg cl ctx key opt s in
       (ptr.of_answer ptr.of_get_response r, s')).

(** No answer of the store holds a nil pointer that [GetEntries] follows. *)
Definition nil_free {Store} (reg : ptr.Registry Store) : Prop :=
  (forall api ctx key opts s resp,
      fst (ptr.KeysAPI_Get reg api ctx key opts s) = inl resp -> ~ ptr.v2_nil resp)
  /\ (forall cl ctx key opt s resp,
         fst (ptr.Client_Get reg cl ctx key opt s) = inl resp -> ~ ptr.v3_nil resp).

(** Stores that answer with a nil pointer: a v2 answer whose second child
    is nil, and a v3 answer whose second record is nil. *)
Definition torn_store : ptr.Registry nat :=
  ptr.mkRegistry nat
    (fun _ _ _ _ n =>
       (inl (ptr.mkResponse
               (Some (ptr.mkNode "/services" "" [Some (ptr.of_node leaf_a); None]))),
        S n))
    (fun _ _ _ _ n => (inl (ptr.mkGetResponse [Some kv_a; None] 2), S n)).


(** ** Proof steps *)

(** One event of a tree run against the wire, then the wire's answer. *)
Ltac wire_step :=
  rewrite interp_state_bind, interp_state_trigger; cbn;
  rewrite bind_ret_l; cbn.

(** Case split of one timeout entry: absent, parsed, or not parsable. *)
Ltac split_timeout env tmp k :=
  destruct (tmp !! k) as [?v|]; [destruct (parseDuration env _)|].

(** Case split of one file-name entry; only a string or an absent entry
    lets [parseOptions] go on. *)
Ltac split_file tmp k :=
  destruct (tmp !! k) as [[]|]; cbn; try discriminate.

(** * Properties *)

(** ** Filling a fresh slice by index *)

Lemma assign_each_fills {A} (f : A -> string) (xs : list A) :
  forall pre : list string,
    assign_each f (length pre) xs (pre ++ replicate (length xs) EmptyString)
    = Returned (pre ++ List.map f xs).
Proof.
  induction xs as [|x xs IH]; intros pre; cbn.
  - reflexivity.
  - destruct (decide _) as [_|Hge].
    + replace (<[length pre := f x]>
                 (pre ++ EmptyString :: replicate (length xs) EmptyString))
        with ((pre ++ [f x]) ++ replicate (length xs) EmptyString).
      * specialize (IH (pre ++ [f x])).
        rewrite length_app in IH. cbn in IH.
        replace (length pre + 1)%nat with (S (length pre)) in IH by lia.
        rewrite IH, <- app_assoc. reflexivity.
      * rewrite <- app_assoc. cbn.
        rewrite <- (Nat.add_0_r (length pre)) at 1.
        rewrite insert_app_r. reflexivity.
    + exfalso. apply Hge. rewrite length_app. cbn. lia.
Qed.

(** A slice made with the length of [xs] and then assigned from [xs]
    never goes out of range, and ends as the image of [xs]. *)
Lemma make_then_assign {A B} (f : A -> string) (xs : list A)
    (k : list string -> outcome B) :
  (do entries <~ make_strings (Z.of_nat (length xs)) in
   do entries <~ assign_each f 0 xs entries in
   k entries) = k (List.map f xs).
Proof.
  unfold make_strings.
  destruct (decide _) as [Hneg|_]; [lia|]. cbn.
  rewrite Nat2Z.id.
  pose proof (assign_each_fills f xs []) as Hfill. cbn in Hfill.
  by rewrite Hfill.
Qed.

(** ** List: the v3 and v2 [GetEntries] *)

Section ListProperties.

Context {Store : Type} (reg : Registry Store).

Lemma GetEntries_v3_inconsistent_once cl ctx timeout key s resp s' :
  Client_Get reg cl (WithTimeout ctx timeout) key etcdv3.WithPrefix s
  = (inl resp, s') ->
  inconsistent resp ->
  clientv3.GetEntries reg (clientv3.mk (Some cl) ctx timeout) key s
  = (Returned (None, None), s').
Proof.
  intros Hget Hinc. unfold clientv3.GetEntries. cbn. rewrite Hget.
  destruct (decide _) as [_|Hno]; [reflexivity|].
  exfalso. apply Hno. destruct Hinc as [Hnil|Hcount].
  - left. by rewrite Hnil.
  - by right.
Qed.

(** A v3 call reads the store once, under the client's context bounded
    by the client's timeout, and hands a read error back as it is. *)
Lemma GetEntries_v3_reads_once ce ctx timeout key s :
  let call := Client_Get reg ce (WithTimeout ctx timeout) key etcdv3.WithPrefix s in
  snd (clientv3.GetEntries reg (clientv3.mk (Some ce) ctx timeout) key s) = snd call
  /\ forall err,
      fst call = inr err ->
      fst (clientv3.GetEntries reg (clientv3.mk (Some ce) ctx timeout) key s)
      = Returned (None, Some err).
Proof.
  unfold clientv3.GetEntries. cbn.
  destruct (Client_Get reg ce (WithTimeout ctx timeout) key etcdv3.WithPrefix s)
    as [[resp|e] s'] eqn:Hcall; cbn.
  - split; [|discriminate]. by destruct (decide _).
  - split; [reflexivity|]. by intros err [= <-].
Qed.

(** The v3 [GetEntries] never panics. *)
Lemma GetEntries_v3_returns c key s :
  exists r, fst (clientv3.GetEntries reg c key s) = Returned r.
Proof.
  unfold clientv3.GetEntries. destruct (clientv3.client c) as [cl|]; [|by eexists].
  destruct (Client_Get _ _ _ _ _ _) as [[resp|e] s']; [|by eexists].
  destruct (decide _) as [Hbad|Hok]; [by eexists|]. cbn.
  assert (Hcount : etcdv3.Count resp = Z.of_nat (length (etcdv3.Kvs resp))).
  { destruct (decide (etcdv3.Count resp = Z.of_nat (length (etcdv3.Kvs resp))));
      [assumption|]. exfalso. apply Hok. by right. }
  rewrite Hcount, make_then_assign. by eexists.
Qed.

End ListProperties.

(** C1. A v3 List whose store read succeeds but carries no record, or a
    count that is not the number of records carried, returns the nil slice
    and no error; and so does every one of any number of successive calls
    for as long as the store keeps answering that way. *)
Theorem GetEntries_v3_inconsistent_read_is_empty :
  forall (Store : Type) (reg : Registry Store) (cl : etcdv3.Client)
         (ctx : Context) (timeout : Duration) (key : string),
    let c := clientv3.mk (Some cl) ctx timeout in
    (forall s resp s',
        Client_Get reg cl (WithTimeout ctx timeout) key etcdv3.WithPrefix s
        = (inl resp, s') ->
        inconsistent resp ->
        clientv3.GetEntries reg c key s = (Returned (None, None), s'))
    /\ (forall persists : Store -> Prop,
        (forall s, persists s ->
           exists resp s',
             Client_Get reg cl (WithTimeout ctx timeout) key etcdv3.WithPrefix s
             = (inl resp, s')
             /\ inconsistent resp /\ persists s') ->
        forall (n : nat) (s : Store),
          persists s ->
          fst (GetEntries_repeated reg c key n s)
          = replicate n (Returned (None, None))).
Proof.
  intros Store reg cl ctx timeout key c. split.
  - intros s resp s'. apply GetEntries_v3_inconsistent_once.
  - intros persists Hstep n.
    induction n as [|n IH]; intros s Hs; [reflexivity|].
    destruct (Hstep s Hs) as (resp & s' & Hget & Hinc & Hs').
    cbn [GetEntries_repeated]. subst c.
    rewrite (GetEntries_v3_inconsistent_once reg cl ctx timeout key s resp s' Hget Hinc).
    specialize (IH s' Hs').
    destruct (GetEntries_repeated _ _ _ n s') as [rs s2]. cbn in *.
    by rewrite IH.
Qed.

Lemma GetEntries_v3_inconsistent_read_is_empty_witness :
  clientv3.GetEntries stale_store (clientv3.mk (Some sample_conn) Background defaultTTL)
    "/services" 0%nat
  = (Returned (None, None), 1%nat)
  /\ fst (GetEntries_repeated stale_store
            (clientv3.mk (Some sample_conn) Background defaultTTL) "/services" 3 0%nat)
     = replicate 3 (Returned (None, None)).
Proof.
  pose proof (GetEntries_v3_inconsistent_read_is_empty nat stale_store sample_conn
                Background defaultTTL "/services") as [Honce Hmany].
  split.
  - apply (Honce 0%nat stale_read 1%nat); [reflexivity|].
    right. vm_compute. discriminate.
  - apply (Hmany (fun _ => True)); [|exact I].
    intros s _. exists stale_read, (S s). split; [reflexivity|].
    split; [|exact I]. right. vm_compute. discriminate.
Defined.

(** C3, as amended. A v3 client whose connection is nil: List returns the
    nil slice and [ErrNilClient] and leaves the store as it was, whatever
    the store is; Watch is the program that returns at once, with no event
    at all. *)
Theorem nil_clientv3_List_errors_Watch_returns :
  forall (Store : Type) (reg : Registry Store) (ctx : Context)
         (timeout : Duration) (key prefix : string) (ch : chan) (s : Store),
    let c := clientv3.mk None ctx timeout in
    clientv3.GetEntries reg c key s = (Returned (None, Some ErrNilClient), s)
    /\ clientv3.WatchPrefix c prefix ch = Ret (Returned tt).
Proof. intros. split; reflexivity. Qed.

(** C3 fails for the v2 client: it has no nil check, and both methods
    panic on the nil [keysAPI]. *)
Lemma nil_client_v2_List_panics :
  client.GetEntries stale_store (client.mk None Background) "/services" 0%nat
  <> (Returned (None, Some ErrNilClient), 0%nat)
  /\ client.GetEntries stale_store (client.mk None Background) "/services" 0%nat
     = (Panicked, 0%nat)
  /\ client.WatchPrefix (client.mk None Background) "/services" (mkChan 0)
     = Ret Panicked.
Proof. split; [vm_compute; discriminate|]. split; reflexivity. Qed.

(** C4, at the input where the code departs from it. The prefix
    [/services] holds one value, under the key [/services/eu/a]; the v2
    List asks for a recursive read, is answered with the whole tree, and
    returns one entry that is not that value: the empty value of the
    directory [/services/eu]. It returns the values of the direct
    children, not the values found recursively. *)
Theorem GetEntries_v2_misses_nested_values :
  values_under nested_node = ["http://10.0.0.1:8080"]
  /\ client.GetEntries nested_store (client.mk (Some sample_api) Background)
       "/services" 0%nat
     = (Returned (Some [EmptyString], None), 1%nat).
Proof. split; reflexivity. Qed.

(** Where nothing is nested, that is where every child is a key with a
    value, the v2 List does return the values under the node read. *)
Lemma GetEntries_v2_flat_is_values_under {Store} (reg : Registry Store)
    api ctx key s resp s' :
  KeysAPI_Get reg api ctx key (etcd.mkGetOptions true) s = (inl resp, s') ->
  Forall (fun child => etcd.Nodes child = [] /\ etcd.Value child <> EmptyString)
    (etcd.Nodes (etcd.RNode resp)) ->
  client.GetEntries reg (client.mk (Some api) ctx) key s
  = (Returned (Some (values_under (etcd.RNode resp)), None), s').
Proof.
  intros Hget Hflat. unfold client.GetEntries. cbn. rewrite Hget.
  assert (Hkeys : List.map etcd.Value (etcd.Nodes (etcd.RNode resp))
                  = flat_map values_under (etcd.Nodes (etcd.RNode resp))).
  { induction Hflat as [|x xs [Hleaf Hval] _ IH]; [reflexivity|].
    cbn [List.map flat_map]. rewrite <- IH.
    destruct x as [xk xv xn]. cbn in *. subst xn.
    by destruct (decide (xv = EmptyString)). }
  destruct (etcd.RNode resp) as [k v children]. cbn in *.
  destruct children as [|c cs].
  - cbn. destruct (decide (v = EmptyString)) as [->|Hv].
    + destruct (decide _) as [[_ Hne]|_]; [contradiction|reflexivity].
    + destruct (decide _) as [_|Hno]; [reflexivity|]. exfalso. apply Hno. by split.
  - destruct (decide _) as [[Hlen _]|_]; [discriminate|].
    rewrite (make_then_assign etcd.Value (c :: cs)). by rewrite Hkeys.
Qed.

(** X21. A successful List returns the values of the records the store
    reported at the top, as many and in the same order: in v3 whenever
    the count is the number of records; in v2 the values of the direct
    children, except that a node without children and with a value of its
    own yields that one value. *)
Theorem GetEntries_returns_values_in_store_order :
  forall (Store : Type) (reg : Registry Store) (ctx : Context) (key : string)
         (s s' : Store),
    (forall cl timeout resp,
        Client_Get reg cl (WithTimeout ctx timeout) key etcdv3.WithPrefix s
        = (inl resp, s') ->
        etcdv3.Count resp = Z.of_nat (length (etcdv3.Kvs resp)) ->
        exists r,
          clientv3.GetEntries reg (clientv3.mk (Some cl) ctx timeout) key s
          = (Returned (r, None), s')
          /\ slice_elems r = List.map clientv3.entry (etcdv3.Kvs resp)
          /\ length (slice_elems r) = length (etcdv3.Kvs resp))
    /\ (forall api resp,
        KeysAPI_Get reg api ctx key (etcd.mkGetOptions true) s = (inl resp, s') ->
        let node := etcd.RNode resp in
        (etcd.Nodes node = [] /\ etcd.Value node <> EmptyString ->
         client.GetEntries reg (client.mk (Some api) ctx) key s
         = (Returned (Some [etcd.Value node], None), s'))
        /\ (~ (etcd.Nodes node = [] /\ etcd.Value node <> EmptyString) ->
            client.GetEntries reg (client.mk (Some api) ctx) key s
            = (Returned (Some (List.map etcd.Value (etcd.Nodes node)), None), s')
            /\ length (List.map etcd.Value (etcd.Nodes node))
               = length (etcd.Nodes node))).
Proof.
  intros Store reg ctx key s s'. split.
  - intros cl timeout resp Hget Hcount.
    unfold clientv3.GetEntries. cbn. rewrite Hget.
    destruct (decide _) as [[Hlen|Hne]|Hok].
    + exists None. split; [reflexivity|].
      apply length_zero_iff_nil in Hlen. rewrite Hlen. split; reflexivity.
    + contradiction.
    + exists (Some (List.map clientv3.entry (etcdv3.Kvs resp))).
      rewrite Hcount, make_then_assign. cbn.
      split; [reflexivity|]. split; [reflexivity|]. apply length_map.
  - intros api resp Hget node. split.
    + intros [Hnil Hval]. unfold client.GetEntries. cbn. rewrite Hget.
      fold node. destruct (decide _) as [_|Hno]; [reflexivity|].
      exfalso. apply Hno. split; [by rewrite Hnil|assumption].
    + intros Hnot. split; [|apply length_map].
      unfold client.GetEntries. cbn. rewrite Hget.
      fold node. destruct (decide _) as [[Hlen Hval]|_].
      * exfalso. apply Hnot. split; [by apply length_zero_iff_nil|assumption].
      * by rewrite make_then_assign.
Qed.

Lemma GetEntries_returns_values_in_store_order_witness :
  (exists r,
      clientv3.GetEntries healthy_store
        (clientv3.mk (Some sample_conn) Background defaultTTL) "/services" 0%nat
      = (Returned (r, None), 1%nat)
      /\ slice_elems r = ["http://10.0.0.1:8080"; "http://10.0.0.2:8080"])
  /\ client.GetEntries stale_store (client.mk (Some sample_api) Background)
       "/services/a" 0%nat
     = (Returned (Some ["http://10.0.0.1:8080"], None), 1%nat)
  /\ client.GetEntries healthy_store (client.mk (Some sample_api) Background)
       "/services" 0%nat
     = (Returned (Some ["http://10.0.0.1:8080"; "http://10.0.0.2:8080"], None), 1%nat).
Proof.
  split; [|split].
  - destruct (proj1 (GetEntries_returns_values_in_store_order nat healthy_store
                       Background "/services" 0%nat 1%nat)
                sample_conn defaultTTL healthy_read eq_refl eq_refl)
      as (r & Hcall & Helems & _).
    exists r. split; [exact Hcall|]. rewrite Helems. reflexivity.
  - apply (proj1 (proj2 (GetEntries_returns_values_in_store_order nat stale_store
                           Background "/services/a" 0%nat 1%nat)
                    sample_api (etcd.mkResponse leaf_a) eq_refl)).
    split; [reflexivity|discriminate].
  - apply (proj2 (proj2 (GetEntries_returns_values_in_store_order nat healthy_store
                           Background "/services" 0%nat 1%nat)
                    sample_api (etcd.mkResponse dir_node) eq_refl)).
    intros [Hnil _]. discriminate Hnil.
Defined.

(** ** Watch: the two [WatchPrefix] loops *)

Lemma clientv3_loop_wire watch ch batches :
  forall ans obs,
    eutt eq
      (interp_state wire (ITree.iter (clientv3.WatchPrefix_body watch ch) tt)
         (mkWire ans batches obs))
      (Ret (mkWire ans [] (obs ++ flat_map (fun b => [Batch b; Signal ch]) batches),
            Returned tt)).
Proof.
  induction batches as [|b bs IH]; intros ans obs;
    rewrite unfold_iter; unfold clientv3.WatchPrefix_body at 1;
    rewrite bind_bind; wire_step.
  - rewrite bind_ret_l, interp_state_ret, app_nil_r. reflexivity.
  - rewrite !bind_bind. wire_step. rewrite bind_ret_l.
    rewrite interp_state_tau, tau_eutt, IH, <- !app_assoc. reflexivity.
Qed.

Lemma client_loop_wire c watch ch ans :
  forall dels obs,
    eutt eq
      (interp_state wire (ITree.iter (client.WatchPrefix_body c watch ch) tt)
         (mkWire ans dels obs))
      (Ret (mkWire (answers_after_error ans) dels
              (obs ++ flat_map (fun r => [Change r; Signal ch])
                        (changes_before_error ans)),
            Returned tt)).
Proof.
  induction ans as [|[r|err] rest IH]; intros dels obs;
    rewrite unfold_iter; unfold client.WatchPrefix_body at 1;
    rewrite bind_bind; wire_step.
  - rewrite bind_ret_l, interp_state_ret, app_nil_r. reflexivity.
  - rewrite !bind_bind. wire_step. rewrite bind_ret_l.
    rewrite interp_state_tau, tau_eutt, IH, <- !app_assoc. reflexivity.
  - rewrite bind_ret_l, interp_state_ret, app_nil_r. reflexivity.
Qed.

(** Whatever the surroundings do, a watch on a live connection begins by
    establishing the watch and sending one signal; only then does it wait
    for the store. *)
Lemma WatchPrefix_first_events :
  (forall cl ctx timeout prefix ch,
      eq_itree eq
        (clientv3.WatchPrefix (clientv3.mk (Some cl) ctx timeout) prefix ch)
        (Vis (Client_Watch cl ctx prefix etcdv3.WithPrefix)
           (fun watch =>
              Vis (Chan_Send ch)
                (fun _ => ITree.iter (clientv3.WatchPrefix_body watch ch) tt))))
  /\ (forall api ctx prefix ch,
      eq_itree eq
        (client.WatchPrefix (client.mk (Some api) ctx) prefix ch)
        (Vis (KeysAPI_Watcher api prefix (etcd.mkWatcherOptions 0 true))
           (fun watch =>
              Vis (Chan_Send ch)
                (fun _ =>
                   ITree.iter
                     (client.WatchPrefix_body (client.mk (Some api) ctx) watch ch)
                     tt)))).
Proof.
  split; intros.
  - unfold clientv3.WatchPrefix. cbn. rewrite bind_trigger.
    apply eqit_Vis. intros watch. rewrite bind_trigger. reflexivity.
  - unfold client.WatchPrefix. cbn. rewrite bind_trigger.
    apply eqit_Vis. intros watch. rewrite bind_trigger. reflexivity.
Qed.

(** C2. A watch on a client with a live connection, run against any
    finite supply of store notifications: the observer sees the sentinel
    signal first, also when the supply is empty, and then each
    notification followed by exactly one signal, in the order of the
    supply. In v3 the supply is what the watch channel delivers before it
    closes; in v2 it is what [Next] answers before its first error. *)
Theorem WatchPrefix_sentinel_then_one_signal_per_batch :
  (forall cl ctx timeout prefix ch batches,
      eutt eq
        (interp_state wire
           (clientv3.WatchPrefix (clientv3.mk (Some cl) ctx timeout) prefix ch)
           (mkWire [] batches []))
        (Ret (mkWire [] []
                (Signal ch :: flat_map (fun b => [Batch b; Signal ch]) batches),
              Returned tt)))
  /\ (forall api ctx prefix ch ans,
      eutt eq
        (interp_state wire
           (client.WatchPrefix (client.mk (Some api) ctx) prefix ch)
           (mkWire ans [] []))
        (Ret (mkWire (answers_after_error ans) []
                (Signal ch :: flat_map (fun r => [Change r; Signal ch])
                                (changes_before_error ans)),
              Returned tt))).
Proof.
  split; intros.
  - unfold clientv3.WatchPrefix. cbn. wire_step. wire_step.
    rewrite clientv3_loop_wire. reflexivity.
  - unfold client.WatchPrefix. cbn. wire_step. wire_step.
    rewrite client_loop_wire. reflexivity.
Qed.

(** ** The factory: reading the configuration block *)

Lemma appendMachines_strings_of ms :
  forall result, appendMachines result ms = result ++ strings_of ms.
Proof.
  induction ms as [|m ms IH]; intros result; cbn.
  - by rewrite app_nil_r.
  - destruct m; cbn; rewrite IH; try reflexivity.
    by rewrite <- app_assoc.
Qed.

Lemma parseMachines_slice tmp ms :
  tmp !! "machines" = Some (VSlice ms) ->
  parseMachines tmp
  = (strings_of ms, if decide (strings_of ms = []) then Some ErrNoMachines else None).
Proof.
  intros Hms. unfold parseMachines. rewrite Hms.
  rewrite appendMachines_strings_of. cbn.
  destruct (decide (length (strings_of ms) = 0%nat)) as [Hlen|Hlen];
    destruct (decide (strings_of ms = [])) as [Hnil|Hnil]; try reflexivity.
  - apply length_zero_iff_nil in Hlen. contradiction.
  - rewrite Hnil in Hlen. contradiction.
Qed.

(** C5 fails on a selector that is not a string: the unchecked assertion
    in [parseVersion] panics, and the factory with it. *)
Lemma client_version_number_panics :
  parseMachines numeric_version_block = (sample_machines, None)
  /\ parseVersion numeric_version_block <> Returned ("v2", None)
  /\ New sample_env Background (extra numeric_version_block) = Panicked.
Proof. split; [reflexivity|]. split; [vm_compute; discriminate|reflexivity]. Qed.

(** C5, as amended. In a block that has passed the machines check, a
    selector that is absent, or that is a string other than "v2" and "v3",
    reads as "v2" without error, and the factory is the v2 constructor
    applied to the parsed options. *)
Theorem client_version_defaults_to_v2 :
  forall (env : Env) (ctx : Context) (e tmp : gmap string value)
         (machines : list string),
    e !! Namespace = Some (VMap tmp) ->
    parseMachines tmp = (machines, None) ->
    (tmp !! "client_version" = None
     \/ exists s, tmp !! "client_version" = Some (VString s)
                  /\ s <> "v2" /\ s <> "v3") ->
    parseVersion tmp = Returned ("v2", None)
    /\ New env ctx e
       = (do options <~ parseOptions env tmp in
          Returned (NewClient env ctx machines options)).
Proof.
  intros env ctx e tmp machines He Hm Hv.
  assert (Hpv : parseVersion tmp = Returned ("v2", None)).
  { unfold parseVersion. destruct Hv as [Habs|(s & Hs & H2 & H3)].
    - by rewrite Habs.
    - rewrite Hs. cbn. destruct (decide _) as [_|Hno]; [reflexivity|].
      exfalso. apply Hno. by split. }
  split; [exact Hpv|].
  unfold New. rewrite He, Hm, Hpv. cbn.
  destruct (decide _) as [Heq|_]; [discriminate|]. reflexivity.
Qed.

Lemma client_version_defaults_to_v2_witness :
  parseVersion unknown_version_block = Returned ("v2", None)
  /\ New sample_env Background (extra unknown_version_block)
     = (do options <~ parseOptions sample_env unknown_version_block in
        Returned (NewClient sample_env Background sample_machines options)).
Proof.
  apply (client_version_defaults_to_v2 sample_env Background
           (extra unknown_version_block) unknown_version_block).
  - reflexivity.
  - reflexivity.
  - right. exists "v4". split; [reflexivity|]. split; discriminate.
Defined.

(** C6. In the machines list the entries that are not strings are passed
    over and the strings kept in order, without failure as long as one
    string is left; when the key is absent, or is not a sequence, or no
    string is left, [parseMachines] reports [ErrNoMachines] and the
    factory returns a nil client with that error. *)
Theorem machines_skip_non_strings_or_no_machines :
  forall (env : Env) (ctx : Context) (e tmp : gmap string value),
    e !! Namespace = Some (VMap tmp) ->
    (forall ms,
        tmp !! "machines" = Some (VSlice ms) ->
        strings_of ms <> [] ->
        parseMachines tmp = (strings_of ms, None))
    /\ ((tmp !! "machines" = None
         \/ (exists v, tmp !! "machines" = Some v /\ forall ms, v <> VSlice ms)
         \/ (exists ms, tmp !! "machines" = Some (VSlice ms) /\ strings_of ms = [])) ->
        parseMachines tmp = ([], Some ErrNoMachines)
        /\ New env ctx e = Returned (None, Some ErrNoMachines)).
Proof.
  intros env ctx e tmp He. split.
  - intros ms Hms Hne. rewrite (parseMachines_slice tmp ms Hms).
    destruct (decide _); [contradiction|reflexivity].
  - intros Hbad.
    assert (Hpm : parseMachines tmp = ([], Some ErrNoMachines)).
    { destruct Hbad as [Habs|[(v & Hv & Hns)|(ms & Hms & Hnil)]].
      - unfold parseMachines. by rewrite Habs.
      - unfold parseMachines. rewrite Hv.
        destruct v; try reflexivity. by destruct (Hns l).
      - rewrite (parseMachines_slice tmp ms Hms), Hnil.
        destruct (decide _); [reflexivity|contradiction]. }
    split; [exact Hpm|]. unfold New. by rewrite He, Hpm.
Qed.

Lemma machines_skip_non_strings_or_no_machines_witness :
  parseMachines {[ "machines" := VSlice mixed_machines ]}
  = (["http://10.0.0.9:2379"; "http://10.0.0.8:2379"], None)
  /\ New sample_env Background (extra {[ "machines" := VSlice [VNumber 7; VBool true] ]})
     = Returned (None, Some ErrNoMachines).
Proof.
  split.
  - apply (proj1 (machines_skip_non_strings_or_no_machines sample_env Background
                    (extra {[ "machines" := VSlice mixed_machines ]})
                    {[ "machines" := VSlice mixed_machines ]} eq_refl)
             mixed_machines).
    + reflexivity.
    + vm_compute. discriminate.
  - apply (proj2 (machines_skip_non_strings_or_no_machines sample_env Background
                    (extra {[ "machines" := VSlice [VNumber 7; VBool true] ]})
                    {[ "machines" := VSlice [VNumber 7; VBool true] ]} eq_refl)).
    right. right. exists [VNumber 7; VBool true]. split; reflexivity.
Defined.

(** ** The factory: the options block and the three durations *)

(** [parseOptions] panics exactly on a block whose file-name fields, or
    whose options entry itself, have the wrong type; no timeout entry can
    make it panic. *)
Lemma parseOptions_panics_iff env cfg :
  parseOptions env cfg = Panicked <-> ~ files_well_typed cfg.
Proof.
  unfold parseOptions, files_well_typed, string_or_absent.
  destruct (cfg !! "options") as [[| | | | |tmp]|]; cbn;
    try (split; [tauto|reflexivity || discriminate || tauto]).
  - destruct (tmp !! "cert") as [[]|]; cbn; try tauto;
    destruct (tmp !! "key") as [[]|]; cbn; try tauto;
    destruct (tmp !! "cacert") as [[]|]; cbn; try tauto;
    (split; [discriminate|tauto]).
  - split; [discriminate|tauto].
Qed.

Lemma parseOptions_durations env cfg tmp o :
  cfg !! "options" = Some (VMap tmp) ->
  parseOptions env cfg = Returned o ->
  DialTimeout o = duration_left env (tmp !! "dial_timeout")
  /\ DialKeepAlive o = duration_left env (tmp !! "dial_keepalive")
  /\ HeaderTimeoutPerRequest o = duration_left env (tmp !! "header_timeout")
  /\ DialKeepAliveTimeout o = 0.
Proof.
  intros Hopt. unfold parseOptions, duration_left. rewrite Hopt. cbn.
  split_file tmp "cert"; split_file tmp "key"; split_file tmp "cacert";
    intros [= <-];
    split_timeout env tmp "dial_timeout";
    split_timeout env tmp "dial_keepalive";
    split_timeout env tmp "header_timeout";
    cbn; repeat split; reflexivity.
Qed.

(** The defaulting block of each constructor, field by field. *)
Lemma NewClient_options_fields o :
  let o' := NewClient_options o in
  DialTimeout o' = (if decide (DialTimeout o = 0) then defaultTTL else DialTimeout o)
  /\ DialKeepAlive o'
     = (if decide (DialKeepAlive o = 0) then defaultTTL else DialKeepAlive o)
  /\ HeaderTimeoutPerRequest o'
     = (if decide (HeaderTimeoutPerRequest o = 0) then defaultTTL
        else HeaderTimeoutPerRequest o)
  /\ Cert o' = Cert o /\ Key o' = Key o /\ CACert o' = CACert o.
Proof.
  unfold NewClient_options. destruct o as [c k ca dt ka kat hdr]. cbn.
  destruct (decide (dt = 0)); cbn; destruct (decide (ka = 0)); cbn;
    destruct (decide (hdr = 0)); cbn; repeat split; reflexivity.
Qed.

Lemma NewClientV3_options_fields o :
  let o' := NewClientV3_options o in
  DialTimeout o' = (if decide (DialTimeout o = 0) then defaultTTL else DialTimeout o)
  /\ DialKeepAlive o'
     = (if decide (DialKeepAlive o = 0) then defaultTTL else DialKeepAlive o)
  /\ HeaderTimeoutPerRequest o'
     = (if decide (HeaderTimeoutPerRequest o = 0) then defaultTTL
        else HeaderTimeoutPerRequest o)
  /\ Cert o' = Cert o /\ Key o' = Key o /\ CACert o' = CACert o.
Proof.
  unfold NewClientV3_options. destruct o as [c k ca dt ka kat hdr]. cbn.
  destruct (decide (dt = 0)); cbn; destruct (decide (ka = 0)); cbn;
    destruct (decide (hdr = 0)); cbn; repeat split; reflexivity.
Qed.



(** ** The constructors: transport and timeouts *)

Lemma NewClient_transport_plain env o :
  Cert o = "" \/ Key o = "" ->
  NewClient_transport env o = inl etcd.DefaultTransport.
Proof.
  intros Hno. unfold NewClient_transport.
  destruct (decide _) as [[Hc Hk]|_]; [|reflexivity].
  destruct Hno; contradiction.
Qed.

Lemma NewClientV3_tls_plain env o :
  Cert o = "" \/ Key o = "" ->
  NewClientV3_tls env o = inl None.
Proof.
  intros Hno. unfold NewClientV3_tls.
  destruct (decide _) as [[Hc Hk]|_]; [|reflexivity].
  destruct Hno; contradiction.
Qed.

(** Without a key pair the v2 configuration carries the library's own
    transport, in which no dial duration of the options occurs; the v3
    configuration carries the dial durations and no TLS. *)
Lemma plain_configs env machines o :
  Cert o = "" \/ Key o = "" ->
  NewClient_config env machines o
  = inl (etcd.mkConfig machines etcd.DefaultTransport
           (HeaderTimeoutPerRequest (NewClient_options o)))
  /\ NewClientV3_config env machines o
     = inl (etcdv3.mkConfig machines
              (DialTimeout (NewClientV3_options o))
              (DialKeepAlive (NewClientV3_options o))
              (HeaderTimeoutPerRequest (NewClientV3_options o)) None).
Proof.
  intros Hno. split.
  - unfold NewClient_config. rewrite NewClient_transport_plain; [reflexivity|].
    destruct (NewClient_options_fields o) as (_ & _ & _ & Hc & Hk & _).
    cbn in Hc, Hk. by rewrite Hc, Hk.
  - unfold NewClientV3_config. rewrite NewClientV3_tls_plain; [reflexivity|].
    destruct (NewClientV3_options_fields o) as (_ & _ & _ & Hc & Hk & _).
    cbn in Hc, Hk. by rewrite Hc, Hk.
Qed.

(** C8, at the input where the code departs from it. Without a key pair,
    dial durations of one second and dial durations of seven and nine
    seconds give the v2 library the very same configuration, whose
    transport is the library's default one: the supplied durations reach
    nothing. The v3 constructor, on the same options, passes them on. *)
Theorem NewClient_plain_transport_drops_dial_durations :
  NewClient_config sample_env sample_machines (dial_options (1 * Second) (1 * Second))
  = inl (etcd.mkConfig sample_machines etcd.DefaultTransport (3 * Second))
  /\ NewClient_config sample_env sample_machines
       (dial_options (7 * Second) (9 * Second))
     = inl (etcd.mkConfig sample_machines etcd.DefaultTransport (3 * Second))
  /\ NewClientV3_config sample_env sample_machines
       (dial_options (7 * Second) (9 * Second))
     = inl (etcdv3.mkConfig sample_machines (7 * Second) (9 * Second)
              (3 * Second) None).
Proof. vm_compute. repeat split. Qed.

(** C9. With a certificate and a key both given, in either generation: an
    error of the key pair is the result of the construction; and when the
    pair loads but the CA file cannot be read, construction goes on to the
    library with a TLS configuration that holds the client certificate and
    no root set, so that its result is the library's alone. *)
Theorem key_pair_error_fails_CA_error_is_ignored :
  forall (env : Env) (ctx : Context) (machines : list string) (o : ClientOptions),
    Cert o <> "" -> Key o <> "" ->
    (forall err,
        tls_LoadX509KeyPair env (Cert o) (Key o) = inr err ->
        NewClient env ctx machines o = (None, Some err)
        /\ NewClientV3 env ctx machines o = (None, Some err))
    /\ (forall tlsCert err,
        tls_LoadX509KeyPair env (Cert o) (Key o) = inl tlsCert ->
        ioutil_ReadFile env (CACert o) = inr err ->
        let tlsCfg := tls.mkConfig [tlsCert] None in
        let cfg2 :=
          etcd.mkConfig machines
            (etcd.HttpTransport tlsCfg
               (net.mkDialer (DialTimeout (NewClient_options o))
                  (DialKeepAlive (NewClient_options o))))
            (HeaderTimeoutPerRequest (NewClient_options o)) in
        let cfg3 :=
          etcdv3.mkConfig machines
            (DialTimeout (NewClientV3_options o))
            (DialKeepAlive (NewClientV3_options o))
            (HeaderTimeoutPerRequest (NewClientV3_options o)) (Some tlsCfg) in
        NewClient env ctx machines o
        = match etcd_New env cfg2 with
          | inr e => (None, Some e)
          | inl ce => (Some (ClientV2 (client.mk (Some (etcd.NewKeysAPI ce)) ctx)), None)
          end
        /\ NewClientV3 env ctx machines o
           = match etcdv3_New env cfg3 with
             | inr e => (None, Some e)
             | inl ce =>
                 (Some (ClientV3
                          (clientv3.mk (Some ce) ctx
                             (HeaderTimeoutPerRequest (NewClientV3_options o)))),
                  None)
             end).
Proof.
  intros env ctx machines o Hc Hk.
  destruct (NewClient_options_fields o) as (_ & _ & _ & Hc2 & Hk2 & Hca2).
  destruct (NewClientV3_options_fields o) as (_ & _ & _ & Hc3 & Hk3 & Hca3).
  cbn in Hc2, Hk2, Hca2, Hc3, Hk3, Hca3.
  split.
  - intros err Hload. split.
    + unfold NewClient, NewClient_config, NewClient_transport.
      rewrite Hc2, Hk2. destruct (decide _) as [_|Hno]; [|tauto].
      by rewrite Hload.
    + unfold NewClientV3, NewClientV3_config, NewClientV3_tls.
      rewrite Hc3, Hk3. destruct (decide _) as [_|Hno]; [|tauto].
      by rewrite Hload.
  - intros tlsCert err Hload Hread tlsCfg cfg2 cfg3. split.
    + unfold NewClient, NewClient_config, NewClient_transport.
      rewrite Hc2, Hk2, Hca2. destruct (decide _) as [_|Hno]; [|tauto].
      by rewrite Hload, Hread.
    + unfold NewClientV3, NewClientV3_config, NewClientV3_tls.
      rewrite Hc3, Hk3, Hca3. destruct (decide _) as [_|Hno]; [|tauto].
      by rewrite Hload, Hread.
Qed.

Lemma key_pair_error_fails_CA_error_is_ignored_witness :
  (NewClient sample_env Background sample_machines
     (tls_options "blank.crt" "blank.key" "blank.CACert")
   = (None, Some (ErrExternal "open: no such file or directory"))
   /\ NewClientV3 sample_env Background sample_machines
        (tls_options "blank.crt" "blank.key" "blank.CACert")
      = (None, Some (ErrExternal "open: no such file or directory")))
  /\ NewClientV3 sample_env Background sample_machines
       (tls_options "client.crt" "client.key" "missing.pem")
     = (Some (ClientV3
                (clientv3.mk
                   (Some (etcdv3.mkClient
                            (etcdv3.mkConfig sample_machines (2 * Second) (2 * Second)
                               (2 * Second)
                               (Some (tls.mkConfig
                                        [tls.mkCertificate "client.crt" "client.key"]
                                        None)))))
                   Background (2 * Second))),
        None).
Proof.
  split.
  - apply (proj1 (key_pair_error_fails_CA_error_is_ignored sample_env Background
                    sample_machines
                    (tls_options "blank.crt" "blank.key" "blank.CACert")
                    ltac:(discriminate) ltac:(discriminate))).
    reflexivity.
  - rewrite (proj2 (proj2 (key_pair_error_fails_CA_error_is_ignored sample_env
                             Background sample_machines
                             (tls_options "client.crt" "client.key" "missing.pem")
                             ltac:(discriminate) ltac:(discriminate))
                      (tls.mkCertificate "client.crt" "client.key")
                      (ErrExternal "open: no such file or directory")
                      eq_refl eq_refl)).
    reflexivity.
Defined.

(** Neither constructor looks at [DialKeepAliveTimeout]. *)
Lemma constructors_ignore_DialKeepAliveTimeout env ctx machines o d :
  NewClient env ctx machines (set_DialKeepAliveTimeout d o) = NewClient env ctx machines o
  /\ NewClientV3 env ctx machines (set_DialKeepAliveTimeout d o)
     = NewClientV3 env ctx machines o.
Proof.
  destruct o as [c k ca dt ka kat hdr].
  unfold NewClient, NewClient_config, NewClient_transport, NewClient_options,
    NewClientV3, NewClientV3_config, NewClientV3_tls, NewClientV3_options,
    set_DialKeepAliveTimeout. cbn.
  destruct (decide (dt = 0)); cbn; destruct (decide (ka = 0)); cbn;
    destruct (decide (hdr = 0)); cbn; split; reflexivity.
Qed.

(** What a v3 call returns, read off its one read. *)
Lemma GetEntries_v3_by_its_read {Store} (reg : Registry Store) ce ctx timeout key s :
  clientv3.GetEntries reg (clientv3.mk (Some ce) ctx timeout) key s
  = (let '(r, s') :=
       Client_Get reg ce (WithTimeout ctx timeout) key etcdv3.WithPrefix s in
     (match r with
      | inr err => Returned (None, Some err)
      | inl resp =>
          if decide (length (etcdv3.Kvs resp) = 0%nat
                     \/ etcdv3.Count resp <> Z.of_nat (length (etcdv3.Kvs resp)))
          then Returned (None, None)
          else Returned (Some (List.map clientv3.entry (etcdv3.Kvs resp)), None)
      end, s')).
Proof.
  unfold clientv3.GetEntries. cbn.
  destruct (Client_Get reg ce (WithTimeout ctx timeout) key etcdv3.WithPrefix s)
    as [[resp|e] s']; [|reflexivity].
  destruct (decide _) as [Hbad|Hok]; [reflexivity|].
  assert (Hcount : etcdv3.Count resp = Z.of_nat (length (etcdv3.Kvs resp))).
  { destruct (decide (etcdv3.Count resp = Z.of_nat (length (etcdv3.Kvs resp))));
      [assumption|]. exfalso. apply Hok. by right. }
  by rewrite Hcount, make_then_assign.
Qed.

(** C10. The v3 constructor, once the TLS configuration is settled, is
    one call of the library on a configuration whose
    [DialKeepAliveTimeout] is the header timeout after defaulting, and on
    success it returns the client whose timeout is that same duration;
    without a key pair this holds as it stands. Every List call of a
    client with that timeout, from any state of the store, is one read
    under the client's context bounded by that timeout. Changing the
    [DialKeepAliveTimeout] field of the options changes the result of
    neither constructor. *)
Theorem header_timeout_is_v3_keepalive_timeout_and_call_timeout :
  forall (env : Env) (ctx : Context) (machines : list string) (o : ClientOptions),
    let dt := if decide (DialTimeout o = 0) then defaultTTL else DialTimeout o in
    let ka := if decide (DialKeepAlive o = 0) then defaultTTL else DialKeepAlive o in
    let hdr :=
      if decide (HeaderTimeoutPerRequest o = 0) then defaultTTL
      else HeaderTimeoutPerRequest o in
    (forall tlsCfg,
        NewClientV3_tls env (NewClientV3_options o) = inl tlsCfg ->
        NewClientV3 env ctx machines o
        = match etcdv3_New env (etcdv3.mkConfig machines dt ka hdr tlsCfg) with
          | inr err => (None, Some err)
          | inl ce => (Some (ClientV3 (clientv3.mk (Some ce) ctx hdr)), None)
          end)
    /\ (Cert o = "" \/ Key o = "" ->
        NewClientV3 env ctx machines o
        = match etcdv3_New env (etcdv3.mkConfig machines dt ka hdr None) with
          | inr err => (None, Some err)
          | inl ce => (Some (ClientV3 (clientv3.mk (Some ce) ctx hdr)), None)
          end)
    /\ (forall (ce : etcdv3.Client) (Store : Type) (reg : Registry Store)
               (key : string) (s : Store),
           clientv3.GetEntries reg (clientv3.mk (Some ce) ctx hdr) key s
           = (let '(r, s') :=
                Client_Get reg ce (WithTimeout ctx hdr) key etcdv3.WithPrefix s in
              (match r with
               | inr err => Returned (None, Some err)
               | inl resp =>
                   if decide (length (etcdv3.Kvs resp) = 0%nat
                              \/ etcdv3.Count resp
                                 <> Z.of_nat (length (etcdv3.Kvs resp)))
                   then Returned (None, None)
                   else Returned
                          (Some (List.map clientv3.entry (etcdv3.Kvs resp)), None)
               end, s')))
    /\ (forall d,
        NewClient env ctx machines (set_DialKeepAliveTimeout d o)
        = NewClient env ctx machines o
        /\ NewClientV3 env ctx machines (set_DialKeepAliveTimeout d o)
           = NewClientV3 env ctx machines o).
Proof.
  intros env ctx machines o dt ka hdr.
  destruct (NewClientV3_options_fields o) as (Hdt & Hka & Hhdr & Hc & Hk & _).
  cbn in Hdt, Hka, Hhdr, Hc, Hk. fold dt in Hdt. fold ka in Hka. fold hdr in Hhdr.
  assert (Hbuilt :
    forall tlsCfg,
      NewClientV3_tls env (NewClientV3_options o) = inl tlsCfg ->
      NewClientV3 env ctx machines o
      = match etcdv3_New env (etcdv3.mkConfig machines dt ka hdr tlsCfg) with
        | inr err => (None, Some err)
        | inl ce => (Some (ClientV3 (clientv3.mk (Some ce) ctx hdr)), None)
        end).
  { intros tlsCfg Htls. unfold NewClientV3, NewClientV3_config.
    by rewrite Htls, Hdt, Hka, Hhdr. }
  split; [exact Hbuilt|]. split; [|split].
  - intros Hno. apply Hbuilt. apply NewClientV3_tls_plain. by rewrite Hc, Hk.
  - intros ce Store reg key s. apply GetEntries_v3_by_its_read.
  - intros d. apply constructors_ignore_DialKeepAliveTimeout.
Qed.

Lemma header_timeout_is_v3_keepalive_timeout_and_call_timeout_witness :
  NewClientV3 sample_env Background sample_machines short_header_options
  = (Some (ClientV3
             (clientv3.mk (Some (etcdv3.mkClient short_header_config)) Background 1)),
     None)
  /\ etcdv3.DialKeepAliveTimeout short_header_config = 1
  /\ clientv3.GetEntries slow_store
       (clientv3.mk (Some (etcdv3.mkClient short_header_config)) Background 1)
       "/services" 0%nat
     = (Returned (None, Some (ErrExternal "context deadline exceeded")), 1%nat).
Proof.
  destruct (header_timeout_is_v3_keepalive_timeout_and_call_timeout sample_env
              Background sample_machines short_header_options)
    as (_ & Hplain & Hcall & _).
  split; [|split].
  - rewrite Hplain; [reflexivity|]. by left.
  - reflexivity.
  - apply (Hcall (etcdv3.mkClient short_header_config) nat slow_store "/services" 0%nat).
Defined.

(** * Further properties of the code *)

(** ** config.go *)

(** X1. [parseVersion], when it returns, gives no error and one of the two
    generations; it gives "v3" exactly when the selector is the string
    "v3". *)
Theorem parseVersion_gives_a_generation :
  forall (cfg : gmap string value) (version : string) (err : option error),
    parseVersion cfg = Returned (version, err) ->
    err = None
    /\ (version = "v2" \/ version = "v3")
    /\ (version = "v3" <-> cfg !! "client_version" = Some (VString "v3")).
Proof.
  intros cfg version err. unfold parseVersion.
  destruct (cfg !! "client_version") as [v|].
  - destruct v as [| | |s| |]; cbn; try discriminate.
    destruct (decide (s ≠ "v2" ∧ s ≠ "v3")) as [[H2 H3]|Hin]; intros [= <- <-].
    + split; [reflexivity|]. split; [by left|].
      split; [discriminate|]. intros [= ->]. contradiction.
    + split; [reflexivity|].
      destruct (decide (s = "v2")) as [->|Hn2].
      * split; [by left|]. split; [discriminate|intros [=]].
      * destruct (decide (s = "v3")) as [->|Hn3].
        -- split; [by right|]. split; reflexivity.
        -- exfalso. apply Hin. by split.
  - intros [= <- <-]. split; [reflexivity|]. split; [by left|].
    split; discriminate.
Qed.

Lemma parseVersion_gives_a_generation_witness :
  parseVersion v3_block = Returned ("v3", None)
  /\ None = (None : option error)
  /\ ("v3" = "v2" \/ "v3" = "v3")
  /\ ("v3" = "v3" <-> v3_block !! "client_version" = Some (VString "v3")).
Proof.
  split; [reflexivity|].
  apply (parseVersion_gives_a_generation v3_block "v3" None). reflexivity.
Defined.

Lemma strings_of_length ms : (length (strings_of ms) <= length ms)%nat.
Proof.
  unfold strings_of. induction ms as [|m ms IH]; cbn; [lia|].
  destruct m; cbn; lia.
Qed.

Lemma strings_of_VString machines : strings_of (List.map VString machines) = machines.
Proof.
  unfold strings_of. induction machines as [|m l IH]; cbn; [reflexivity|].
  by rewrite IH.
Qed.

(** X2. [parseMachines] reports an error exactly when the list it returns
    is empty; the error is always [ErrNoMachines]; and the list is never
    longer than the sequence read. *)
Theorem parseMachines_error_iff_empty :
  forall (cfg : gmap string value),
    (snd (parseMachines cfg) = Some ErrNoMachines <-> fst (parseMachines cfg) = [])
    /\ (snd (parseMachines cfg) = None <-> fst (parseMachines cfg) <> [])
    /\ forall ms, cfg !! "machines" = Some (VSlice ms) ->
                  (length (fst (parseMachines cfg)) <= length ms)%nat.
Proof.
  intros cfg. unfold parseMachines.
  destruct (cfg !! "machines") as [[| | | |ms|]|] eqn:Hm; cbn;
    try (split; [tauto|split; [split; [discriminate|tauto]|discriminate]]).
  rewrite appendMachines_strings_of. cbn.
  destruct (decide (length (strings_of ms) = 0%nat)) as [Hlen|Hlen]; cbn.
  - apply length_zero_iff_nil in Hlen. rewrite Hlen.
    split; [tauto|]. split; [split; [discriminate|tauto]|].
    intros ms' [= <-]. cbn. lia.
  - assert (Hne : strings_of ms <> []).
    { intros Hnil. rewrite Hnil in Hlen. contradiction. }
    split; [split; [discriminate|tauto]|]. split; [tauto|].
    intros ms' [= <-]. apply strings_of_length.
Qed.

(** X3. A non-empty sequence holding strings only is read back as it is:
    every machine, in order, and no error. *)
Theorem parseMachines_reads_back_strings :
  forall (cfg : gmap string value) (machines : list string),
    machines <> [] ->
    cfg !! "machines" = Some (VSlice (List.map VString machines)) ->
    parseMachines cfg = (machines, None).
Proof.
  intros cfg machines Hne Hm.
  rewrite (parseMachines_slice cfg _ Hm), strings_of_VString.
  destruct (decide _); [contradiction|reflexivity].
Qed.

Lemma parseMachines_reads_back_strings_witness :
  parseMachines {[ "machines" := VSlice (List.map VString ["http://a:2379"; "http://b:2379"]) ]}
  = (["http://a:2379"; "http://b:2379"], None).
Proof.
  apply parseMachines_reads_back_strings; [discriminate|reflexivity].
Defined.

Lemma parseMachines_error_iff_empty_witness :
  (length (fst (parseMachines {[ "machines" := VSlice mixed_machines ]})) <= 4)%nat
  /\ snd (parseMachines {[ "machines" := VSlice mixed_machines ]}) = None.
Proof.
  destruct (parseMachines_error_iff_empty {[ "machines" := VSlice mixed_machines ]})
    as (_ & Hnone & Hlen).
  split.
  - apply (Hlen mixed_machines). reflexivity.
  - apply Hnone. vm_compute. discriminate.
Defined.

(** X4. When [parseOptions] returns on a block with an options map, each
    file-name field holds the string of its entry, or is empty without
    one; each of the three durations holds what [parseDuration] made of
    its entry, or zero; and [DialKeepAliveTimeout] is zero: no entry of
    the configuration reaches it. *)
Theorem parseOptions_fills_fields :
  forall (env : Env) (cfg tmp : gmap string value) (o : ClientOptions),
    cfg !! "options" = Some (VMap tmp) ->
    parseOptions env cfg = Returned o ->
    o = mkClientOptions
          (name_left (tmp !! "cert")) (name_left (tmp !! "key"))
          (name_left (tmp !! "cacert"))
          (duration_left env (tmp !! "dial_timeout"))
          (duration_left env (tmp !! "dial_keepalive"))
          0
          (duration_left env (tmp !! "header_timeout")).
Proof.
  intros env cfg tmp o Hopt. unfold parseOptions, duration_left, name_left.
  rewrite Hopt. cbn.
  split_file tmp "cert"; split_file tmp "key"; split_file tmp "cacert";
    intros [= <-];
    split_timeout env tmp "dial_timeout";
    split_timeout env tmp "dial_keepalive";
    split_timeout env tmp "header_timeout";
    reflexivity.
Qed.

Lemma parseOptions_fills_fields_witness :
  Returned (mkClientOptions "" "" "ca.pem" 0 0 0 (2 * Second))
  = parseOptions sample_env v3_block.
Proof.
  rewrite (parseOptions_fills_fields sample_env v3_block
             (<["header_timeout" := VString "2s"]> (<["cacert" := VString "ca.pem"]> ∅))
             (mkClientOptions "" "" "ca.pem" 0 0 0 (2 * Second)) eq_refl eq_refl).
  reflexivity.
Defined.

(** X5. Entry by entry: a timeout entry that is a string the duration
    parser accepts with a result other than zero, negative ones included,
    reaches both constructors unchanged, whatever the other entries of the
    options block are or whether they are there at all. Neither
    [parseOptions] nor the defaulting alters it. *)
Theorem parsed_timeouts_are_kept :
  forall (env : Env) (cfg tmp : gmap string value) (o : ClientOptions),
    cfg !! "options" = Some (VMap tmp) ->
    parseOptions env cfg = Returned o ->
    (forall s d,
        tmp !! "dial_timeout" = Some (VString s) ->
        time_ParseDuration env s = inl d -> d <> 0 ->
        DialTimeout (NewClient_options o) = d
        /\ DialTimeout (NewClientV3_options o) = d)
    /\ (forall s d,
           tmp !! "dial_keepalive" = Some (VString s) ->
           time_ParseDuration env s = inl d -> d <> 0 ->
           DialKeepAlive (NewClient_options o) = d
           /\ DialKeepAlive (NewClientV3_options o) = d)
    /\ (forall s d,
           tmp !! "header_timeout" = Some (VString s) ->
           time_ParseDuration env s = inl d -> d <> 0 ->
           HeaderTimeoutPerRequest (NewClient_options o) = d
           /\ HeaderTimeoutPerRequest (NewClientV3_options o) = d).
Proof.
  intros env cfg tmp o Hopt Hret.
  destruct (parseOptions_durations env cfg tmp o Hopt Hret) as (F1 & F2 & F3 & _).
  destruct (NewClient_options_fields o) as (Hdt & Hka & Hhdr & _).
  destruct (NewClientV3_options_fields o) as (Hdt3 & Hka3 & Hhdr3 & _).
  cbn in Hdt, Hka, Hhdr, Hdt3, Hka3, Hhdr3.
  rewrite Hdt, Hka, Hhdr, Hdt3, Hka3, Hhdr3, F1, F2, F3.
  split; [|split]; intros s d Hentry Hparse Hnz; rewrite Hentry; cbn;
    rewrite Hparse; (destruct (decide (d = 0)); [contradiction|]);
    split; reflexivity.
Qed.

Lemma parsed_timeouts_are_kept_witness :
  (DialTimeout (NewClient_options (mkClientOptions "" "" "" 0 (- Second) 0 0)) = 3 * Second
   /\ DialKeepAlive (NewClient_options (mkClientOptions "" "" "" 0 (- Second) 0 0))
      = - Second
   /\ DialKeepAlive (NewClientV3_options (mkClientOptions "" "" "" 0 (- Second) 0 0))
      = - Second)
  /\ (HeaderTimeoutPerRequest
        (NewClient_options (mkClientOptions "" "" "" (2 * Second) (- Second) 0 (2 * Second)))
      = 2 * Second
      /\ HeaderTimeoutPerRequest
           (NewClientV3_options
              (mkClientOptions "" "" "" (2 * Second) (- Second) 0 (2 * Second)))
         = 2 * Second).
Proof.
  split.
  - destruct (parsed_timeouts_are_kept signed_env keepalive_only_block
                keepalive_only_map (mkClientOptions "" "" "" 0 (- Second) 0 0)
                eq_refl eq_refl) as (_ & Hka & _).
    destruct (Hka "-1s" (- Second) eq_refl eq_refl ltac:(discriminate)) as [H2 H3].
    split; [reflexivity|]. by split.
  - destruct (parsed_timeouts_are_kept signed_env timeouts_block timeouts_map
                (mkClientOptions "" "" "" (2 * Second) (- Second) 0 (2 * Second))
                eq_refl eq_refl) as (_ & _ & Hhdr).
    apply (Hhdr "2s" (2 * Second)); [reflexivity|reflexivity|discriminate].
Defined.

(** ** The factory and what it returns *)

Lemma NewClient_result env ctx machines o :
  (exists ce,
      NewClient env ctx machines o
      = (Some (ClientV2 (client.mk (Some (etcd.NewKeysAPI ce)) ctx)), None))
  \/ (exists err, NewClient env ctx machines o = (None, Some err)).
Proof.
  unfold NewClient.
  destruct (NewClient_config env machines o) as [cfg|err]; [|right; by exists err].
  destruct (etcd_New env cfg) as [ce|err]; [left; by exists ce|right; by exists err].
Qed.

Lemma NewClientV3_result env ctx machines o :
  (exists ce,
      NewClientV3 env ctx machines o
      = (Some (ClientV3
                 (clientv3.mk (Some ce) ctx
                    (HeaderTimeoutPerRequest (NewClientV3_options o)))), None))
  \/ (exists err, NewClientV3 env ctx machines o = (None, Some err)).
Proof.
  unfold NewClientV3.
  destruct (NewClientV3_config env machines o) as [cfg|err]; [|right; by exists err].
  destruct (etcdv3_New env cfg) as [ce|err]; [left; by exists ce|right; by exists err].
Qed.

(** What [New] comes to once the block has passed the machines check and
    the selector has been read. *)
Lemma New_dispatch env ctx e tmp machines version :
  e !! Namespace = Some (VMap tmp) ->
  parseMachines tmp = (machines, None) ->
  parseVersion tmp = Returned (version, None) ->
  New env ctx e
  = (do options <~ parseOptions env tmp in
     Returned (if decide (version = "v3")
               then NewClientV3 env ctx machines options
               else NewClient env ctx machines options)).
Proof.
  intros He Hm Hv. unfold New. rewrite He, Hm, Hv. cbn.
  by destruct (decide (version = "v3")).
Qed.

(** [parseMachines] fails with [ErrNoMachines] only, and succeeds with a
    list that is not empty. *)
Lemma parseMachines_cases tmp machines merr :
  parseMachines tmp = (machines, merr) ->
  (merr = Some ErrNoMachines /\ machines = [])
  \/ (merr = None /\ machines <> []).
Proof.
  unfold parseMachines.
  destruct (tmp !! "machines") as [[| | | |ms|]|];
    try (intros [= <- <-]; by left).
  cbn. destruct (decide _) as [Hlen|Hlen]; intros [= <- <-].
  - left. split; [reflexivity|]. by apply length_zero_iff_nil.
  - right. split; [reflexivity|]. intros Hnil. by rewrite Hnil in Hlen.
Qed.

Lemma parseVersion_no_error tmp version verr :
  parseVersion tmp = Returned (version, verr) -> verr = None.
Proof.
  unfold parseVersion. destruct (tmp !! "client_version") as [[]|]; cbn;
    try discriminate; by intros [= _ <-].
Qed.

(** The stages of [New], one after the other. *)
Lemma New_stages env ctx e r :
  New env ctx e = Returned r ->
  r = (None, Some ErrNoConfig)
  \/ r = (None, Some ErrBadConfig)
  \/ r = (None, Some ErrNoMachines)
  \/ exists tmp machines version options,
      e !! Namespace = Some (VMap tmp)
      /\ parseMachines tmp = (machines, None)
      /\ machines <> []
      /\ parseVersion tmp = Returned (version, None)
      /\ parseOptions env tmp = Returned options
      /\ r = (if decide (version = "v3")
              then NewClientV3 env ctx machines options
              else NewClient env ctx machines options).
Proof.
  unfold New.
  destruct (e !! Namespace) as [v|] eqn:He; [|intros [= <-]; by left].
  destruct v as [| | | | |tmp]; try (intros [= <-]; right; by left).
  destruct (parseMachines tmp) as [machines merr] eqn:Hm.
  destruct (parseMachines_cases tmp machines merr Hm) as [[-> ->]|[-> Hne]].
  - intros [= <-]. right. right. by left.
  - destruct (parseVersion tmp) as [[version verr]|] eqn:Hv; cbn; [|discriminate].
    pose proof (parseVersion_no_error tmp version verr Hv) as ->.
    intros Hr. right. right. right.
    destruct (parseOptions env tmp) as [options|] eqn:Ho.
    + exists tmp, machines, version, options.
      repeat (split; [first [reflexivity | assumption]|]).
      destruct (decide (version = "v3")); cbn in Hr; by injection Hr as <-.
    + destruct (decide (version = "v3")); cbn in Hr; discriminate.
Qed.

(** X6. Without a block under the package's name the factory returns a
    nil client and [ErrNoConfig]; with a value there that is not a map, a
    nil client and [ErrBadConfig]. Either way nothing else of the
    configuration is looked at and the environment is not called. *)
Theorem New_without_a_block :
  forall (env : Env) (ctx : Context) (e : gmap string value),
    (e !! Namespace = None -> New env ctx e = Returned (None, Some ErrNoConfig))
    /\ (forall v,
           e !! Namespace = Some v ->
           (forall tmp, v <> VMap tmp) ->
           New env ctx e = Returned (None, Some ErrBadConfig)).
Proof.
  intros env ctx e. split.
  - intros He. unfold New. by rewrite He.
  - intros v He Hshape. unfold New. rewrite He.
    destruct v; try reflexivity. by destruct (Hshape m).
Qed.

Lemma New_without_a_block_witness :
  New sample_env Background ∅ = Returned (None, Some ErrNoConfig)
  /\ New sample_env Background {[ Namespace := VSlice [VString "http://10.0.0.9:2379"] ]}
     = Returned (None, Some ErrBadConfig).
Proof.
  split.
  - apply (proj1 (New_without_a_block sample_env Background ∅)). reflexivity.
  - apply (proj2 (New_without_a_block sample_env Background
                    {[ Namespace := VSlice [VString "http://10.0.0.9:2379"] ]})
             (VSlice [VString "http://10.0.0.9:2379"])).
    + reflexivity.
    + discriminate.
Defined.

(** X7. Whenever the factory returns, it returns either a client and no
    error, or an error and no client: never both, never neither. *)
Theorem New_returns_client_or_error :
  forall (env : Env) (ctx : Context) (e : gmap string value)
         (c : option Client) (err : option error),
    New env ctx e = Returned (c, err) ->
    (c = None /\ err <> None) \/ (c <> None /\ err = None).
Proof.
  intros env ctx e c err Hnew.
  destruct (New_stages env ctx e (c, err) Hnew)
    as [[= -> ->]|[[= -> ->]|[[= -> ->]|Hbuilt]]]; try (left; by split).
  destruct Hbuilt as (tmp & machines & version & options & _ & _ & _ & _ & _ & Hr).
  destruct (decide (version = "v3")).
  - destruct (NewClientV3_result env ctx machines options) as [[ce Hc]|[e3 Hc]];
      rewrite Hc in Hr; injection Hr as -> ->; [right|left]; by split.
  - destruct (NewClient_result env ctx machines options) as [[ce Hc]|[e2 Hc]];
      rewrite Hc in Hr; injection Hr as -> ->; [right|left]; by split.
Qed.

Lemma New_returns_client_or_error_witness :
  ((None : option Client) = None /\ Some ErrNoMachines <> None)
  \/ ((None : option Client) <> None /\ Some ErrNoMachines = None).
Proof.
  apply (New_returns_client_or_error sample_env Background
           (extra {[ "machines" := VSlice [VNumber 7; VBool true] ]})).
  reflexivity.
Defined.

(** X8. A client the factory returns is of the generation the selector
    names: the v3 client exactly when the selector is the string "v3". It
    holds a live connection and the context the factory was given, and
    the per-call timeout of a v3 client is never zero. *)
Theorem New_client_generation_matches_selector :
  forall (env : Env) (ctx : Context) (e tmp : gmap string value) (c : Client),
    e !! Namespace = Some (VMap tmp) ->
    New env ctx e = Returned (Some c, None) ->
    (tmp !! "client_version" = Some (VString "v3")
     /\ exists ce timeout,
         c = ClientV3 (clientv3.mk (Some ce) ctx timeout) /\ timeout <> 0)
    \/ (tmp !! "client_version" <> Some (VString "v3")
        /\ exists api, c = ClientV2 (client.mk (Some api) ctx)).
Proof.
  intros env ctx e tmp c He Hnew.
  destruct (New_stages env ctx e _ Hnew)
    as [[=]|[[=]|[[=]|Hbuilt]]].
  destruct Hbuilt as (tmp' & machines & version & options & He' & _ & _ & Hv & _ & Hr).
  rewrite He in He'. injection He' as <-.
  assert (Hsel : version = "v3" <-> tmp !! "client_version" = Some (VString "v3")).
  { revert Hv. unfold parseVersion.
    destruct (tmp !! "client_version") as [[| | |s| |]|]; cbn; try discriminate.
    - destruct (decide (s ≠ "v2" ∧ s ≠ "v3")) as [[H2 H3]|Hin]; intros [= <-].
      + split; [discriminate|]. intros [= ->]. contradiction.
      + split; [by intros ->|by intros [= ->]].
    - intros [= <-]. split; discriminate. }
  destruct (decide (version = "v3")) as [H3|H3].
  - left. split; [by apply Hsel|].
    destruct (NewClientV3_result env ctx machines options) as [[ce Hc]|[e3 Hc]];
      rewrite Hc in Hr; [|discriminate].
    injection Hr as ->. exists ce, (HeaderTimeoutPerRequest (NewClientV3_options options)).
    split; [reflexivity|].
    destruct (NewClientV3_options_fields options) as (_ & _ & Hhdr & _).
    cbn in Hhdr. rewrite Hhdr.
    destruct (decide _); [discriminate|assumption].
  - right. split; [by rewrite <- Hsel|].
    destruct (NewClient_result env ctx machines options) as [[ce Hc]|[e2 Hc]];
      rewrite Hc in Hr; [|discriminate].
    injection Hr as ->. by exists (etcd.NewKeysAPI ce).
Qed.

Lemma New_client_generation_matches_selector_witness :
  (v3_block !! "client_version" = Some (VString "v3")
   /\ exists ce timeout,
       v3_block_client = ClientV3 (clientv3.mk (Some ce) Background timeout)
       /\ timeout <> 0)
  \/ (v3_block !! "client_version" <> Some (VString "v3")
      /\ exists api, v3_block_client = ClientV2 (client.mk (Some api) Background)).
Proof.
  apply (New_client_generation_matches_selector sample_env Background
           (extra v3_block) v3_block v3_block_client); reflexivity.
Defined.

(** ** List, further *)

Section ListFurther.

Context {Store : Type} (reg : Registry Store).

(** The v2 [GetEntries] does not panic on a client whose [keysAPI] is
    set. *)
Lemma GetEntries_v2_returns api ctx key s :
  exists r, fst (client.GetEntries reg (client.mk (Some api) ctx) key s) = Returned r.
Proof.
  unfold client.GetEntries. cbn.
  destruct (KeysAPI_Get _ _ _ _ _ _) as [[resp|e] s']; [|by eexists].
  destruct (decide _); [by eexists|]. cbn.
  rewrite make_then_assign. by eexists.
Qed.

End ListFurther.

(** *** With the pointers of the answers *)

(** The loop over pointers, on a slice made for it: it panics when one
    of the pointers is nil, and otherwise fills the slice. *)
Lemma assign_each_deref_fills {A} (f : A -> string) (xs : list (option A)) :
  forall pre : list string,
    (None ∈ xs
     /\ assign_each_deref f (length pre) xs (pre ++ replicate (length xs) EmptyString)
        = Panicked)
    \/ (exists ys,
           xs = List.map Some ys
           /\ assign_each_deref f (length pre) xs
                (pre ++ replicate (length xs) EmptyString)
              = Returned (pre ++ List.map f ys)).
Proof.
  induction xs as [|[a|] xs IH]; intros pre.
  - right. exists []. split; [reflexivity|]. cbn. by rewrite app_nil_r.
  - cbn. destruct (decide _) as [_|Hge].
    + replace (<[length pre := f a]>
                 (pre ++ EmptyString :: replicate (length xs) EmptyString))
        with ((pre ++ [f a]) ++ replicate (length xs) EmptyString).
      * specialize (IH (pre ++ [f a])).
        rewrite length_app in IH. cbn in IH.
        replace (length pre + 1)%nat with (S (length pre)) in IH by lia.
        destruct IH as [[Hnil Hp]|(ys & -> & Hr)].
        -- left. split; [by apply elem_of_cons; right|exact Hp].
        -- right. exists (a :: ys). split; [reflexivity|].
           rewrite Hr, <- app_assoc. reflexivity.
      * rewrite <- app_assoc. cbn.
        rewrite <- (Nat.add_0_r (length pre)) at 1.
        rewrite insert_app_r. reflexivity.
    + exfalso. apply Hge. rewrite length_app. cbn. lia.
  - left. split; [apply elem_of_cons; by left|reflexivity].
Qed.

Lemma map_Some_of_no_nil {A B} (g : A -> B) (ys : list A) :
  None ∉ List.map (fun y => Some (g y)) ys.
Proof.
  induction ys as [|y ys IH]; cbn; [apply not_elem_of_nil|].
  intros [Hhd|Htl]%elem_of_cons; [discriminate|contradiction].
Qed.

Lemma map_Some_of_inv {A B} (g : A -> B) (xs : list A) :
  forall ys, List.map (fun x => Some (g x)) xs = List.map Some ys -> ys = List.map g xs.
Proof.
  induction xs as [|x xs IH]; intros [|y ys]; cbn; try discriminate; [reflexivity|].
  intros [= <- Hrest]. f_equal. by apply IH.
Qed.

Lemma map_Some_no_nil {A} (ys : list A) : None ∉ List.map Some ys.
Proof. apply (map_Some_of_no_nil (fun y => y)). Qed.

(** What [make] and the loop over pointers come to together. *)
Lemma make_then_assign_deref {A B} (f : A -> string) (xs : list (option A))
    (k : list string -> outcome B) :
  (None ∈ xs
   /\ (do entries <~ make_strings (Z.of_nat (length xs)) in
       do entries <~ assign_each_deref f 0 xs entries in
       k entries) = Panicked)
  \/ (exists ys,
         xs = List.map Some ys
         /\ (do entries <~ make_strings (Z.of_nat (length xs)) in
             do entries <~ assign_each_deref f 0 xs entries in
             k entries) = k (List.map f ys)).
Proof.
  unfold make_strings.
  destruct (decide _) as [Hneg|_]; [lia|]. cbn. rewrite Nat2Z.id.
  destruct (assign_each_deref_fills f xs []) as [[Hnil Hp]|(ys & Hxs & Hr)];
    cbn in *.
  - left. split; [assumption|]. by rewrite Hp.
  - right. exists ys. split; [assumption|]. by rewrite Hr.
Qed.

(** On a store whose answers hold no nil pointer the methods with
    pointers are the methods without. *)
Lemma GetEntries_with_pointers {Store} (reg : Registry Store) c key (s : Store) :
  ptr.Client_GetEntries (with_pointers reg) c key s = Client_GetEntries reg c key s.
Proof.
  destruct c as [c2|c3]; cbn.
  - unfold ptr.client_GetEntries, client.GetEntries. cbn.
    destruct (client.keysAPI c2) as [api|]; [|reflexivity].
    destruct (KeysAPI_Get reg api (client.ctx c2) key (etcd.mkGetOptions true) s)
      as [[resp|e] s']; [|reflexivity].
    cbn. destruct (etcd.RNode resp) as [k v children]. cbn.
    rewrite length_map.
    destruct (decide _); [reflexivity|]. f_equal.
    rewrite make_then_assign.
    destruct (make_then_assign_deref ptr.Value
                (List.map (fun child => Some (ptr.of_node child)) children)
                (fun entries => Returned (Some entries, @None error)))
      as [[Hnil _]|(ys & Hys & Hr)].
    + exfalso. by apply map_Some_of_no_nil in Hnil.
    + rewrite length_map in Hr. rewrite Hr. do 3 f_equal.
      rewrite (map_Some_of_inv ptr.of_node children ys Hys), List.map_map.
      apply List.map_ext. by intros [].
  - unfold ptr.clientv3_GetEntries, clientv3.GetEntries. cbn.
    destruct (clientv3.client c3) as [cl|]; [|reflexivity].
    destruct (Client_Get reg cl _ key etcdv3.WithPrefix s) as [[resp|e] s'];
      [|reflexivity].
    cbn. rewrite length_map.
    destruct (decide _) as [Hbad|Hok]; [reflexivity|]. f_equal.
    assert (Hcount : etcdv3.Count resp = Z.of_nat (length (etcdv3.Kvs resp))).
    { destruct (decide (etcdv3.Count resp = Z.of_nat (length (etcdv3.Kvs resp))));
        [assumption|]. exfalso. apply Hok. by right. }
    rewrite Hcount, make_then_assign.
    destruct (make_then_assign_deref clientv3.entry (List.map Some (etcdv3.Kvs resp))
                (fun entries => Returned (Some entries, @None error)))
      as [[Hnil _]|(ys & Hys & Hr)].
    + exfalso. by apply map_Some_no_nil in Hnil.
    + rewrite length_map in Hr. rewrite Hr. do 3 f_equal.
      rewrite (map_Some_of_inv (fun x => x) (etcdv3.Kvs resp) ys Hys).
      by rewrite List.map_id.
Qed.

Lemma with_pointers_nil_free {Store} (reg : Registry Store) :
  nil_free (with_pointers reg).
Proof.
  split.
  - intros api ctx key opts s resp. cbn.
    destruct (KeysAPI_Get reg api ctx key opts s) as [[r|e] s']; cbn; [|discriminate].
    intros [= <-]. unfold ptr.v2_nil. cbn. destruct (etcd.RNode r) as [k v children].
    cbn. apply map_Some_of_no_nil.
  - intros cl ctx key opt s resp. cbn.
    destruct (Client_Get reg cl ctx key opt s) as [[r|e] s']; cbn; [|discriminate].
    intros [= <-]. unfold ptr.v3_nil. cbn. apply map_Some_no_nil.
Qed.

Section PointersFurther.

Context {Store : Type} (reg : ptr.Registry Store).

Lemma client_GetEntries_panics_iff api ctx key s :
  fst (ptr.client_GetEntries reg (client.mk (Some api) ctx) key s) = Panicked
  <-> exists resp,
      fst (ptr.KeysAPI_Get reg api ctx key (etcd.mkGetOptions true) s) = inl resp
      /\ ptr.v2_nil resp.
Proof.
  unfold ptr.client_GetEntries. cbn.
  destruct (ptr.KeysAPI_Get reg api ctx key (etcd.mkGetOptions true) s)
    as [[resp|e] s']; cbn.
  2: { split; [discriminate|]. by intros (resp & [=] & _). }
  unfold ptr.v2_nil. destruct (ptr.RNode resp) as [node|] eqn:Hnode; cbn.
  2: { split; [intros _|reflexivity]. exists resp. by rewrite Hnode. }
  destruct (decide _) as [[Hlen _]|_].
  - split; [discriminate|]. intros (r & [= <-] & Hnil). rewrite Hnode in Hnil.
    apply length_zero_iff_nil in Hlen. rewrite Hlen in Hnil.
    by apply not_elem_of_nil in Hnil.
  - destruct (make_then_assign_deref ptr.Value (ptr.Nodes node)
                (fun entries => Returned (Some entries, @None error)))
      as [[Hnil Hp]|(ys & Hys & Hr)].
    + rewrite Hp. split; [intros _|reflexivity]. exists resp. by rewrite Hnode.
    + rewrite Hr. split; [discriminate|]. intros (r & [= <-] & Hnil).
      rewrite Hnode, Hys in Hnil. by apply map_Some_no_nil in Hnil.
Qed.

Lemma clientv3_GetEntries_panics_iff c key s :
  fst (ptr.clientv3_GetEntries reg c key s) = Panicked
  <-> exists cl resp,
      clientv3.client c = Some cl
      /\ fst (ptr.Client_Get reg cl (WithTimeout (clientv3.ctx c) (clientv3.timeout c))
                key etcdv3.WithPrefix s) = inl resp
      /\ ptr.Count resp = Z.of_nat (length (ptr.Kvs resp))
      /\ ptr.v3_nil resp.
Proof.
  unfold ptr.clientv3_GetEntries.
  destruct (clientv3.client c) as [cl|]; cbn.
  2: { split; [discriminate|]. by intros (cl & resp & [=] & _). }
  destruct (ptr.Client_Get reg cl _ key etcdv3.WithPrefix s) as [r s'] eqn:Hread.
  assert (Hback :
    forall cl' resp',
      Some cl = Some cl' ->
      fst (ptr.Client_Get reg cl' (WithTimeout (clientv3.ctx c) (clientv3.timeout c))
             key etcdv3.WithPrefix s) = inl resp' ->
      r = inl resp').
  { intros cl' resp' [= <-]. by rewrite Hread. }
  destruct r as [resp|e]; cbn.
  2: { split; [discriminate|]. intros (cl' & resp' & Hcl & Hr & _).
       by specialize (Hback _ _ Hcl Hr). }
  unfold ptr.v3_nil.
  destruct (decide _) as [[Hlen|Hne]|Hok]; cbn.
  - split; [discriminate|]. intros (cl' & r & Hcl & Hr & _ & Hnil).
    specialize (Hback _ _ Hcl Hr). injection Hback as <-.
    apply length_zero_iff_nil in Hlen. rewrite Hlen in Hnil.
    by apply not_elem_of_nil in Hnil.
  - split; [discriminate|]. intros (cl' & r & Hcl & Hr & Hcount & _).
    specialize (Hback _ _ Hcl Hr). by injection Hback as <-.
  - assert (Hcount : ptr.Count resp = Z.of_nat (length (ptr.Kvs resp))).
    { destruct (decide (ptr.Count resp = Z.of_nat (length (ptr.Kvs resp))));
        [assumption|]. exfalso. apply Hok. by right. }
    rewrite Hcount.
    destruct (make_then_assign_deref clientv3.entry (ptr.Kvs resp)
                (fun entries => Returned (Some entries, @None error)))
      as [[Hnil Hp]|(ys & Hys & Hr)].
    + rewrite Hp. split; [intros _|reflexivity]. exists cl, resp.
      rewrite Hread. by repeat split.
    + rewrite Hr. split; [discriminate|].
      intros (cl' & r & Hcl & Hr' & _ & Hnil).
      specialize (Hback _ _ Hcl Hr'). injection Hback as <-.
      rewrite Hys in Hnil. by apply map_Some_no_nil in Hnil.
Qed.

End PointersFurther.

(** X9. With the answers of the store taken as the libraries type them,
    pointers included: [GetEntries] panics exactly when it has to follow
    a nil pointer. In v2, on a client whose [keysAPI] is set, that is when
    the read succeeds with an answer whose node is nil or one of whose
    direct children is nil; in v3, when the read succeeds with as many
    records as it counts and one of them is nil. Nothing else makes it
    panic: no count, negative ones included, and no length, since the
    slice made is always as long as the records then assigned by index. *)
Theorem GetEntries_panics_exactly_on_nil_pointers :
  forall (Store : Type) (reg : ptr.Registry Store) (key : string) (s : Store),
    (forall c : clientv3.t,
        fst (ptr.clientv3_GetEntries reg c key s) = Panicked
        <-> exists cl resp,
            clientv3.client c = Some cl
            /\ fst (ptr.Client_Get reg cl
                      (WithTimeout (clientv3.ctx c) (clientv3.timeout c))
                      key etcdv3.WithPrefix s) = inl resp
            /\ ptr.Count resp = Z.of_nat (length (ptr.Kvs resp))
            /\ ptr.v3_nil resp)
    /\ (forall api ctx,
           fst (ptr.client_GetEntries reg (client.mk (Some api) ctx) key s) = Panicked
           <-> exists resp,
               fst (ptr.KeysAPI_Get reg api ctx key (etcd.mkGetOptions true) s)
               = inl resp
               /\ ptr.v2_nil resp).
Proof.
  intros Store reg key s. split.
  - intros c. apply clientv3_GetEntries_panics_iff.
  - intros api ctx. apply client_GetEntries_panics_iff.
Qed.

Lemma GetEntries_panics_exactly_on_nil_pointers_witness :
  fst (ptr.clientv3_GetEntries torn_store
         (clientv3.mk (Some sample_conn) Background defaultTTL) "/services" 0%nat)
  = Panicked
  /\ fst (ptr.client_GetEntries torn_store (client.mk (Some sample_api) Background)
            "/services" 0%nat)
     = Panicked.
Proof.
  destruct (GetEntries_panics_exactly_on_nil_pointers nat torn_store "/services" 0%nat)
    as [H3 H2].
  split.
  - apply H3. exists sample_conn, (ptr.mkGetResponse [Some kv_a; None] 2).
    split; [reflexivity|]. split; [reflexivity|]. split; [reflexivity|].
    unfold ptr.v3_nil. cbn. apply elem_of_cons. right. apply elem_of_cons. by left.
  - apply H2.
    exists (ptr.mkResponse
              (Some (ptr.mkNode "/services" "" [Some (ptr.of_node leaf_a); None]))).
    split; [reflexivity|].
    unfold ptr.v2_nil. cbn. apply elem_of_cons. right. apply elem_of_cons. by left.
Defined.

(** X10. A client the factory has returned, in either generation, does
    not panic in [GetEntries] on a store whose answers hold no nil
    pointer: the factory never hands out a client without a connection,
    and nothing but a nil pointer in an answer makes the call panic. *)
Theorem factory_client_panics_only_on_nil_pointers :
  forall (env : Env) (ctx : Context) (e : gmap string value) (c : Client),
    New env ctx e = Returned (Some c, None) ->
    forall (Store : Type) (reg : ptr.Registry Store) (key : string) (s : Store),
      nil_free reg ->
      exists r, fst (ptr.Client_GetEntries reg c key s) = Returned r.
Proof.
  intros env ctx e c Hnew Store reg key s [Hfree2 Hfree3].
  assert (Hlive :
    (exists api, c = ClientV2 (client.mk (Some api) ctx)) \/ exists c3, c = ClientV3 c3).
  { destruct (New_stages env ctx e _ Hnew) as [[=]|[[=]|[[=]|Hbuilt]]].
    destruct Hbuilt as (tmp & machines & version & options & _ & _ & _ & _ & _ & Hr).
    destruct (decide (version = "v3")).
    - destruct (NewClientV3_result env ctx machines options) as [[ce Hc]|[e3 Hc]];
        rewrite Hc in Hr; [|discriminate].
      injection Hr as ->. right. by eexists.
    - destruct (NewClient_result env ctx machines options) as [[ce Hc]|[e2 Hc]];
        rewrite Hc in Hr; [|discriminate].
      injection Hr as ->. left. by eexists. }
  destruct Hlive as [[api ->]|[c3 ->]]; cbn.
  - destruct (fst (ptr.client_GetEntries reg (client.mk (Some api) ctx) key s))
      as [r|] eqn:Hout; [by exists r|].
    apply client_GetEntries_panics_iff in Hout as (resp & Hread & Hnil).
    by destruct (Hfree2 _ _ _ _ _ _ Hread).
  - destruct (fst (ptr.clientv3_GetEntries reg c3 key s)) as [r|] eqn:Hout;
      [by exists r|].
    apply clientv3_GetEntries_panics_iff in Hout as (cl & resp & _ & Hread & _ & Hnil).
    by destruct (Hfree3 _ _ _ _ _ _ Hread).
Qed.

Lemma factory_client_panics_only_on_nil_pointers_witness :
  exists r,
    fst (ptr.Client_GetEntries (with_pointers nested_store) v3_block_client
           "/services" 0%nat)
    = Returned r.
Proof.
  apply (factory_client_panics_only_on_nil_pointers sample_env Background
           (extra v3_block) v3_block_client eq_refl).
  apply with_pointers_nil_free.
Defined.

(** X11. What [GetEntries] returns on a client with a connection, read
    off the one read it makes. The error returned is the error of the
    read, unchanged, and there is none when the read succeeds. The v3
    slice, when it is not nil, is not empty and comes without error; the
    v2 slice is nil exactly when there is an error. The store is left as
    the read left it. *)
Theorem GetEntries_outcomes :
  forall (Store : Type) (reg : Registry Store) (ctx : Context) (key : string)
         (s : Store),
    (forall cl timeout,
        let read :=
          Client_Get reg cl (WithTimeout ctx timeout) key etcdv3.WithPrefix s in
        exists ents err,
          clientv3.GetEntries reg (clientv3.mk (Some cl) ctx timeout) key s
          = (Returned (ents, err), snd read)
          /\ err = match fst read with inr e => Some e | inl _ => None end
          /\ forall l, ents = Some l -> l <> [] /\ err = None)
    /\ (forall api,
           let read := KeysAPI_Get reg api ctx key (etcd.mkGetOptions true) s in
           exists ents err,
             client.GetEntries reg (client.mk (Some api) ctx) key s
             = (Returned (ents, err), snd read)
             /\ err = match fst read with inr e => Some e | inl _ => None end
             /\ (ents = None <-> err <> None)).
Proof.
  intros Store reg ctx key s. split.
  - intros cl timeout read. subst read. unfold clientv3.GetEntries. cbn.
    destruct (Client_Get reg cl (WithTimeout ctx timeout) key etcdv3.WithPrefix s)
      as [[resp|e] s'] eqn:Hread; cbn.
    + destruct (decide _) as [Hbad|Hok].
      * exists None, None. repeat split; discriminate.
      * assert (Hcount : etcdv3.Count resp = Z.of_nat (length (etcdv3.Kvs resp))).
        { destruct (decide (etcdv3.Count resp = Z.of_nat (length (etcdv3.Kvs resp))));
            [assumption|]. exfalso. apply Hok. by right. }
        rewrite Hcount, make_then_assign.
        exists (Some (List.map clientv3.entry (etcdv3.Kvs resp))), None.
        split; [reflexivity|]. split; [reflexivity|].
        intros l [= <-]. split; [|reflexivity].
        intros Hnil. apply Hok. left.
        apply (f_equal (@length string)) in Hnil. by rewrite length_map in Hnil.
    + exists None, (Some e). repeat split; discriminate.
  - intros api read. subst read. unfold client.GetEntries. cbn.
    destruct (KeysAPI_Get reg api ctx key (etcd.mkGetOptions true) s)
      as [[resp|e] s'] eqn:Hread; cbn.
    + destruct (decide _).
      * eexists _, None. split; [reflexivity|]. split; [reflexivity|].
        split; [discriminate|]. intros Hne. by destruct Hne.
      * rewrite make_then_assign. eexists _, None.
        split; [reflexivity|]. split; [reflexivity|].
        split; [discriminate|]. intros Hne. by destruct Hne.
    + exists None, (Some e). repeat split; discriminate.
Qed.

Lemma GetEntries_outcomes_witness :
  (exists ents err,
      clientv3.GetEntries nested_store
        (clientv3.mk (Some sample_conn) Background defaultTTL) "/services" 0%nat
      = (Returned (ents, err), 1%nat)
      /\ err = None
      /\ forall l, ents = Some l -> l <> [] /\ err = None)
  /\ (exists ents err,
         client.GetEntries failing_store (client.mk (Some sample_api) Background)
           "/services" 0%nat
         = (Returned (ents, err), 1%nat)
         /\ err = Some (ErrExternal "100: Key not found")
         /\ (ents = None <-> err <> None)).
Proof.
  split.
  - apply (proj1 (GetEntries_outcomes nat nested_store Background "/services" 0%nat)
             sample_conn defaultTTL).
  - apply (proj2 (GetEntries_outcomes nat failing_store Background "/services" 0%nat)
             sample_api).
Defined.

Lemma make_then_assign_same_length {A B C} (f : A -> string) (xs : list A)
    (ys : list C) (k : list string -> outcome B) :
  length ys = length xs ->
  (do entries <~ make_strings (Z.of_nat (length ys)) in
   do entries <~ assign_each f 0 xs entries in
   k entries) = k (List.map f xs).
Proof. intros ->. apply make_then_assign. Qed.

(** X12. The v2 [GetEntries] looks at the node read and at its children,
    and at nothing below them, although it asks for a recursive read: the
    result is the same when everything below the children is cut off. The
    values of nested keys are not returned. *)
Theorem GetEntries_v2_stops_at_children :
  forall (Store : Type) (reg reg' : Registry Store) (api : etcd.KeysAPI)
         (ctx : Context) (key : string) (s s' : Store) (resp : etcd.Response),
    KeysAPI_Get reg api ctx key (etcd.mkGetOptions true) s = (inl resp, s') ->
    KeysAPI_Get reg' api ctx key (etcd.mkGetOptions true) s = (inl (prune resp), s') ->
    client.GetEntries reg (client.mk (Some api) ctx) key s
    = client.GetEntries reg' (client.mk (Some api) ctx) key s
    /\ exists l,
        client.GetEntries reg (client.mk (Some api) ctx) key s
        = (Returned (Some l, None), s')
        /\ (length l <= Nat.max 1 (length (etcd.Nodes (etcd.RNode resp))))%nat.
Proof.
  intros Store reg reg' api ctx key s s' resp Hget Hget'.
  unfold client.GetEntries. cbn. rewrite Hget, Hget'. cbn.
  rewrite length_map.
  destruct (decide _) as [Hleaf|Hdir].
  - split; [reflexivity|]. eexists. split; [reflexivity|]. cbn. lia.
  - rewrite make_then_assign.
    rewrite make_then_assign_same_length by (by rewrite length_map).
    rewrite List.map_map. cbn.
    split; [reflexivity|]. eexists. split; [reflexivity|].
    rewrite length_map. lia.
Qed.

Lemma GetEntries_v2_stops_at_children_witness :
  (client.GetEntries nested_store (client.mk (Some sample_api) Background)
     "/services" 0%nat
   = client.GetEntries pruned_store (client.mk (Some sample_api) Background)
       "/services" 0%nat
   /\ exists l,
       client.GetEntries nested_store (client.mk (Some sample_api) Background)
         "/services" 0%nat
       = (Returned (Some l, None), 1%nat)
       /\ (length l <= Nat.max 1 1)%nat)
  /\ client.GetEntries nested_store (client.mk (Some sample_api) Background)
       "/services" 0%nat
     = (Returned (Some [EmptyString], None), 1%nat).
Proof.
  split; [|reflexivity].
  apply (GetEntries_v2_stops_at_children nat nested_store pruned_store sample_api
           Background "/services" 0%nat 1%nat (etcd.mkResponse nested_node));
    reflexivity.
Defined.

(** ** Watch, further *)

(** One turn of each loop: it waits for the store; on a notification it
    sends one signal and is then the same loop again; when the v3 channel
    is closed, or the v2 watcher reports an error, it returns. *)
Lemma watch_loops_unfold :
  (forall watch ch,
      eq_itree eq
        (ITree.iter (clientv3.WatchPrefix_body watch ch) tt)
        (Vis (WatchChan_Range watch)
           (fun r =>
              match r with
              | None => Ret (Returned tt)
              | Some _ =>
                  Vis (Chan_Send ch)
                    (fun _ => Tau (ITree.iter (clientv3.WatchPrefix_body watch ch) tt))
              end)))
  /\ (forall c watch ch,
         eq_itree eq
           (ITree.iter (client.WatchPrefix_body c watch ch) tt)
           (Vis (Watcher_Next watch (client.ctx c))
              (fun r =>
                 match r with
                 | inr _ => Ret (Returned tt)
                 | inl _ =>
                     Vis (Chan_Send ch)
                       (fun _ => Tau (ITree.iter (client.WatchPrefix_body c watch ch) tt))
                 end))).
Proof.
  split; intros.
  - rewrite unfold_iter at 1. unfold clientv3.WatchPrefix_body at 1.
    rewrite bind_bind, bind_trigger. apply eqit_Vis. intros [resp|].
    + rewrite bind_bind, bind_trigger. apply eqit_Vis. intros [].
      rewrite bind_ret_l. reflexivity.
    + rewrite bind_ret_l. reflexivity.
  - rewrite unfold_iter at 1. unfold client.WatchPrefix_body at 1.
    rewrite bind_bind, bind_trigger. apply eqit_Vis. intros [resp|err].
    + rewrite bind_bind, bind_trigger. apply eqit_Vis. intros [].
      rewrite bind_ret_l. reflexivity.
    + rewrite bind_ret_l. reflexivity.
Qed.

(** X14. Watching through a client the factory has returned, with a
    store that has nothing to report: in either generation the call sends
    the sentinel signal, sends nothing else, and returns without a
    panic. *)
Theorem factory_client_watch_sends_sentinel :
  forall (env : Env) (ctx : Context) (e : gmap string value) (c : Client)
         (prefix : string) (ch : chan),
    New env ctx e = Returned (Some c, None) ->
    eutt eq
      (interp_state wire (Client_WatchPrefix c prefix ch) (mkWire [] [] []))
      (Ret (mkWire [] [] [Signal ch], Returned tt)).
Proof.
  intros env ctx e c prefix ch Hnew.
  destruct (New_stages env ctx e _ Hnew) as [[=]|[[=]|[[=]|Hbuilt]]].
  destruct Hbuilt as (tmp & machines & version & options & _ & _ & _ & _ & _ & Hr).
  destruct (decide (version = "v3")).
  - destruct (NewClientV3_result env ctx machines options) as [[ce Hc]|[e3 Hc]];
      rewrite Hc in Hr; [|discriminate].
    injection Hr as ->. unfold Client_WatchPrefix, clientv3.WatchPrefix. cbn.
    wire_step. wire_step. rewrite clientv3_loop_wire. reflexivity.
  - destruct (NewClient_result env ctx machines options) as [[ce Hc]|[e2 Hc]];
      rewrite Hc in Hr; [|discriminate].
    injection Hr as ->. unfold Client_WatchPrefix, client.WatchPrefix. cbn.
    wire_step. wire_step. rewrite client_loop_wire. reflexivity.
Qed.

Lemma factory_client_watch_sends_sentinel_witness :
  eutt eq
    (interp_state wire (Client_WatchPrefix v3_block_client "/services" (mkChan 1))
       (mkWire [] [] []))
    (Ret (mkWire [] [] [Signal (mkChan 1)], Returned tt)).
Proof.
  apply (factory_client_watch_sends_sentinel sample_env Background (extra v3_block)).
  reflexivity.
Defined.

(** ** The constructors, further *)

(** X15. The two constructors build their TLS configuration alike: what
    the v3 constructor hands to its library is what the v2 constructor
    puts into its transport, there is none in v3 exactly when v2 keeps the
    library's default transport, and the key pair error is the same. *)
Theorem TLS_configuration_same_in_both_generations :
  forall (env : Env) (o : ClientOptions),
    NewClientV3_tls env o
    = match NewClient_transport env o with
      | inr err => inr err
      | inl etcd.DefaultTransport => inl None
      | inl (etcd.HttpTransport tlsCfg _) => inl (Some tlsCfg)
      end.
Proof.
  intros env o. unfold NewClientV3_tls, NewClient_transport.
  destruct (decide _); [|reflexivity].
  destruct (tls_LoadX509KeyPair env (Cert o) (Key o)); [|reflexivity].
  by destruct (ioutil_ReadFile env (CACert o)).
Qed.

(** X16. After the defaulting of either constructor none of the three
    durations is zero; a duration that was not zero, a negative one
    included, is unchanged, and so are the file names and
    [DialKeepAliveTimeout]; defaulting twice is defaulting once; and the
    two constructors default alike. *)
Theorem defaulting_leaves_no_zero_duration :
  forall o : ClientOptions,
    let o' := NewClient_options o in
    (DialTimeout o' <> 0 /\ DialKeepAlive o' <> 0 /\ HeaderTimeoutPerRequest o' <> 0)
    /\ (DialTimeout o <> 0 -> DialTimeout o' = DialTimeout o)
    /\ (DialKeepAlive o <> 0 -> DialKeepAlive o' = DialKeepAlive o)
    /\ (HeaderTimeoutPerRequest o <> 0 ->
        HeaderTimeoutPerRequest o' = HeaderTimeoutPerRequest o)
    /\ (Cert o' = Cert o /\ Key o' = Key o /\ CACert o' = CACert o
        /\ DialKeepAliveTimeout o' = DialKeepAliveTimeout o)
    /\ NewClient_options o' = o'
    /\ NewClientV3_options o = o'.
Proof.
  intros [c k ca dt ka kat hdr]. unfold NewClient_options, NewClientV3_options. cbn.
  destruct (decide (dt = 0)) as [->|Hdt]; cbn;
    destruct (decide (ka = 0)) as [->|Hka]; cbn;
    destruct (decide (hdr = 0)) as [->|Hhdr]; cbn;
    repeat match goal with
      | |- context [decide (?x = 0)] => destruct (decide (x = 0)); try discriminate; try contradiction; cbn
      end;
    repeat split; try discriminate; try assumption; try reflexivity;
    intros; try reflexivity; contradiction.
Qed.

Lemma defaulting_leaves_no_zero_duration_witness :
  DialTimeout (NewClient_options full_tls_options) = 3 * Second
  /\ DialKeepAlive (NewClient_options full_tls_options) = -1.
Proof.
  destruct (defaulting_leaves_no_zero_duration full_tls_options)
    as (_ & _ & Hka & _).
  split; [reflexivity|]. apply Hka. discriminate.
Defined.

(** X17. With a key pair that loads and a CA file that can be read, both
    constructors trust exactly the content of that file and present the
    loaded certificate; and on this path the v2 transport dials with the
    dial timeout and keep-alive of the options, as defaulted. *)
Theorem readable_CA_becomes_the_root_pool :
  forall (env : Env) (o : ClientOptions) (tlsCert : tls.Certificate)
         (caCertCt : bytes),
    Cert o <> "" -> Key o <> "" ->
    tls_LoadX509KeyPair env (Cert o) (Key o) = inl tlsCert ->
    ioutil_ReadFile env (CACert o) = inl caCertCt ->
    let tlsCfg := tls.mkConfig [tlsCert] (Some [caCertCt]) in
    NewClient_transport env (NewClient_options o)
    = inl (etcd.HttpTransport tlsCfg
             (net.mkDialer (DialTimeout (NewClient_options o))
                (DialKeepAlive (NewClient_options o))))
    /\ NewClientV3_tls env (NewClientV3_options o) = inl (Some tlsCfg).
Proof.
  intros env o tlsCert caCertCt Hc Hk Hload Hread tlsCfg.
  destruct (NewClient_options_fields o) as (_ & _ & _ & Hc2 & Hk2 & Hca2).
  destruct (NewClientV3_options_fields o) as (_ & _ & _ & Hc3 & Hk3 & Hca3).
  cbn in Hc2, Hk2, Hca2, Hc3, Hk3, Hca3.
  unfold NewClient_transport, NewClientV3_tls.
  rewrite Hc2, Hk2, Hca2, Hc3, Hk3, Hca3, Hload, Hread.
  destruct (decide _) as [_|Hno]; [|tauto]. split; reflexivity.
Qed.

Lemma readable_CA_becomes_the_root_pool_witness :
  NewClient_transport sample_env (NewClient_options full_tls_options)
  = inl (etcd.HttpTransport
           (tls.mkConfig [tls.mkCertificate "client.crt" "client.key"]
              (Some [list_byte_of_string "CERTIFICATE"]))
           (net.mkDialer (3 * Second) (-1)))
  /\ NewClientV3_tls sample_env (NewClientV3_options full_tls_options)
     = inl (Some (tls.mkConfig [tls.mkCertificate "client.crt" "client.key"]
                    (Some [list_byte_of_string "CERTIFICATE"]))).
Proof.
  apply (readable_CA_becomes_the_root_pool sample_env full_tls_options
           (tls.mkCertificate "client.crt" "client.key")
           (list_byte_of_string "CERTIFICATE"));
    try reflexivity; discriminate.
Defined.

(** X18. A constructor fails for one of two reasons only, both outside
    the package: the key pair did not load, or the library refused the
    configuration; the error returned is theirs, unchanged. No duration,
    no CA file and no list of machines makes a constructor fail by
    itself. *)
Theorem constructor_errors_come_from_outside :
  forall (env : Env) (ctx : Context) (machines : list string) (o : ClientOptions)
         (err : error),
    (NewClient env ctx machines o = (None, Some err) ->
     (Cert o <> "" /\ Key o <> "" /\ tls_LoadX509KeyPair env (Cert o) (Key o) = inr err)
     \/ exists cfg,
         NewClient_config env machines o = inl cfg /\ etcd_New env cfg = inr err)
    /\ (NewClientV3 env ctx machines o = (None, Some err) ->
        (Cert o <> "" /\ Key o <> ""
         /\ tls_LoadX509KeyPair env (Cert o) (Key o) = inr err)
        \/ exists cfg,
            NewClientV3_config env machines o = inl cfg
            /\ etcdv3_New env cfg = inr err).
Proof.
  intros env ctx machines o err.
  destruct (NewClient_options_fields o) as (_ & _ & _ & Hc2 & Hk2 & Hca2).
  destruct (NewClientV3_options_fields o) as (_ & _ & _ & Hc3 & Hk3 & Hca3).
  cbn in Hc2, Hk2, Hca2, Hc3, Hk3, Hca3.
  split.
  - unfold NewClient.
    destruct (NewClient_config env machines o) as [cfg|e1] eqn:Hcfg.
    + destruct (etcd_New env cfg) as [ce|e2] eqn:Hnew; [discriminate|].
      intros [= <-]. right. by exists cfg.
    + intros [= <-]. left. revert Hcfg.
      unfold NewClient_config, NewClient_transport. rewrite Hc2, Hk2.
      destruct (decide _) as [[Hc Hk]|_]; [|discriminate].
      destruct (tls_LoadX509KeyPair env (Cert o) (Key o)); [discriminate|].
      by intros [= <-].
  - unfold NewClientV3.
    destruct (NewClientV3_config env machines o) as [cfg|e1] eqn:Hcfg.
    + destruct (etcdv3_New env cfg) as [ce|e2] eqn:Hnew; [discriminate|].
      intros [= <-]. right. by exists cfg.
    + intros [= <-]. left. revert Hcfg.
      unfold NewClientV3_config, NewClientV3_tls. rewrite Hc3, Hk3.
      destruct (decide _) as [[Hc Hk]|_]; [|discriminate].
      destruct (tls_LoadX509KeyPair env (Cert o) (Key o)); [discriminate|].
      by intros [= <-].
Qed.

Lemma constructor_errors_come_from_outside_witness :
  (zeroOptions.(Cert) <> "" /\ zeroOptions.(Key) <> ""
   /\ tls_LoadX509KeyPair sample_env (Cert zeroOptions) (Key zeroOptions)
      = inr (ErrExternal "etcdclient: no available endpoints"))
  \/ exists cfg,
      NewClientV3_config sample_env [] zeroOptions = inl cfg
      /\ etcdv3_New sample_env cfg = inr (ErrExternal "etcdclient: no available endpoints").
Proof.
  apply (proj2 (constructor_errors_come_from_outside sample_env Background []
                  zeroOptions (ErrExternal "etcdclient: no available endpoints"))).
  reflexivity.
Defined.

Lemma NewClient_transport_dialer env o tlsCfg dial :
  NewClient_transport env o = inl (etcd.HttpTransport tlsCfg dial) ->
  dial = net.mkDialer (DialTimeout o) (DialKeepAlive o).
Proof.
  unfold NewClient_transport.
  destruct (decide (Cert o ≠ "" ∧ Key o ≠ "")); [|discriminate].
  destruct (tls_LoadX509KeyPair env (Cert o) (Key o)); [|discriminate].
  by intros [= _ <-].
Qed.

(** X19. What reaches the libraries: the machines exactly as given, in
    order, an empty list included; and durations none of which is zero,
    whatever the options were. *)
Theorem library_configuration_is_complete :
  forall (env : Env) (machines : list string) (o : ClientOptions),
    (forall cfg,
        NewClient_config env machines o = inl cfg ->
        etcd.Endpoints cfg = machines
        /\ etcd.HeaderTimeoutPerRequest cfg <> 0
        /\ forall tlsCfg dial,
            etcd.Transport cfg = etcd.HttpTransport tlsCfg dial ->
            net.Timeout dial <> 0 /\ net.KeepAlive dial <> 0)
    /\ (forall cfg,
           NewClientV3_config env machines o = inl cfg ->
           etcdv3.Endpoints cfg = machines
           /\ etcdv3.DialTimeout cfg <> 0
           /\ etcdv3.DialKeepAliveTime cfg <> 0
           /\ etcdv3.DialKeepAliveTimeout cfg <> 0).
Proof.
  intros env machines o.
  assert (Hnz : forall d : Duration, (if decide (d = 0) then defaultTTL else d) <> 0).
  { intros d. destruct (decide (d = 0)); [discriminate|assumption]. }
  destruct (NewClient_options_fields o) as (Hdt & Hka & Hhdr & _).
  destruct (NewClientV3_options_fields o) as (Hdt3 & Hka3 & Hhdr3 & _).
  cbn in Hdt, Hka, Hhdr, Hdt3, Hka3, Hhdr3.
  split.
  - intros cfg. unfold NewClient_config.
    destruct (NewClient_transport env (NewClient_options o)) as [tr|] eqn:Htr;
      [|discriminate].
    intros [= <-]. cbn [etcd.Endpoints etcd.HeaderTimeoutPerRequest etcd.Transport].
    split; [reflexivity|]. rewrite Hhdr. split; [apply Hnz|].
    intros tlsCfg dial ->.
    rewrite (NewClient_transport_dialer env _ tlsCfg dial Htr).
    cbn [net.Timeout net.KeepAlive]. rewrite Hdt, Hka. split; apply Hnz.
  - intros cfg. unfold NewClientV3_config.
    destruct (NewClientV3_tls env (NewClientV3_options o)); [|discriminate].
    intros [= <-]. cbn. rewrite Hdt3, Hka3, Hhdr3.
    split; [reflexivity|]. repeat split; apply Hnz.
Qed.

Lemma library_configuration_is_complete_witness :
  etcdv3.Endpoints short_header_config = sample_machines
  /\ etcdv3.DialTimeout short_header_config <> 0
  /\ etcdv3.DialKeepAliveTime short_header_config <> 0
  /\ etcdv3.DialKeepAliveTimeout short_header_config <> 0.
Proof.
  apply (proj2 (library_configuration_is_complete sample_env sample_machines
                  short_header_options) short_header_config).
  reflexivity.
Defined.

(** ** When the factory panics *)

Lemma parseVersion_panics_iff tmp :
  parseVersion tmp = Panicked
  <-> exists v, tmp !! "client_version" = Some v /\ forall s, v <> VString s.
Proof.
  unfold parseVersion. destruct (tmp !! "client_version") as [v|]; cbn.
  - destruct v as [| | |s| |]; cbn;
      try (split; [intros _; eexists; split; [reflexivity|discriminate]|reflexivity]).
    split; [discriminate|]. intros (v & [= <-] & Hns). by destruct (Hns s).
  - split; [discriminate|]. by intros (v & [=] & _).
Qed.

(** X20. The factory panics in exactly one situation: the block is a map
    with at least one machine, and either the selector is present without
    being a string, or the options entry or one of its file names has the
    wrong type. A missing block, a block of the wrong shape, bad machines
    and bad durations never make it panic. *)
Theorem New_panics_exactly_on_ill_typed_fields :
  forall (env : Env) (ctx : Context) (e : gmap string value),
    New env ctx e = Panicked
    <-> exists tmp,
        e !! Namespace = Some (VMap tmp)
        /\ snd (parseMachines tmp) = None
        /\ ((exists v, tmp !! "client_version" = Some v /\ forall s, v <> VString s)
            \/ ~ files_well_typed tmp).
Proof.
  intros env ctx e. unfold New.
  destruct (e !! Namespace) as [v|] eqn:He.
  2: { split; [discriminate|]. by intros (tmp & [=] & _). }
  destruct v as [| | | | |tmp];
    try (split; [discriminate|]; by intros (tmp' & [=] & _)).
  destruct (parseMachines tmp) as [machines merr] eqn:Hm.
  destruct merr as [err|].
  { split; [discriminate|]. intros (tmp' & [= <-] & Hok & _).
    rewrite Hm in Hok. discriminate. }
  pose proof (parseVersion_panics_iff tmp) as Hpv.
  pose proof (parseOptions_panics_iff env tmp) as Hpo.
  destruct (parseVersion tmp) as [[version verr]|] eqn:Hv; cbn.
  - pose proof (parseVersion_no_error tmp version verr Hv) as ->.
    assert (Hpanic :
      (if decide (version = "v3")
       then obind (parseOptions env tmp)
              (fun options => Returned (NewClientV3 env ctx machines options))
       else obind (parseOptions env tmp)
              (fun options => Returned (NewClient env ctx machines options)))
      = Panicked <-> parseOptions env tmp = Panicked).
    { destruct (decide (version = "v3"));
        destruct (parseOptions env tmp); cbn; split; try discriminate; reflexivity. }
    rewrite Hpanic, Hpo. split.
    + intros Hbad. exists tmp. rewrite Hm. split; [reflexivity|]. split; [reflexivity|].
      by right.
    + intros (tmp' & [= <-] & _ & [Hsel|Hbad]); [|assumption].
      apply Hpv in Hsel. discriminate.
  - split; [|reflexivity]. intros _. exists tmp. rewrite Hm.
    split; [reflexivity|]. split; [reflexivity|]. left. by apply Hpv.
Qed.

Lemma New_panics_exactly_on_ill_typed_fields_witness :
  New sample_env Background
    (extra (<["options" := VString "none"]>
              {[ "machines" := VSlice [VString "http://10.0.0.9:2379"] ]}))
  = Panicked.
Proof.
  apply (proj2 (New_panics_exactly_on_ill_typed_fields sample_env Background _)).
  exists (<["options" := VString "none"]>
            {[ "machines" := VSlice [VString "http://10.0.0.9:2379"] ]}).
  split; [reflexivity|]. split; [reflexivity|]. right. vm_compute. tauto.
Defined.

(** ** Runs of a watch, whatever the surroundings *)

Lemma trace_of_inv {R} (t : itree watchE R) tr :
  trace_of t tr ->
  tr = []
  \/ match observe t with
     | RetF _ => False
     | TauF t' => trace_of t' tr
     | VisF e k => exists x tr', tr = Occurs e x :: tr' /\ trace_of (k x) tr'
     end.
Proof.
  destruct 1 as [t|t t' tr Hobs Htr|t T e k x tr Hobs Htr].
  - by left.
  - right. by rewrite Hobs.
  - right. rewrite Hobs. by exists x, tr.
Qed.

(** Trees that are equal as trees have the same runs. *)
Lemma trace_of_eq_itree {R} (t1 t2 : itree watchE R) tr :
  eq_itree eq t1 t2 -> trace_of t1 tr -> trace_of t2 tr.
Proof.
  intros Heq Htr. revert t2 Heq.
  induction Htr as [t|t t' tr Hobs Htr IH|t T e k x tr Hobs Htr IH]; intros t2 Heq.
  - constructor.
  - assert (Ht2 : eq_itree eq t2 (Tau t')).
    { rewrite <- Heq. rewrite (itree_eta t), Hobs. reflexivity. }
    apply eqitree_inv_Tau_r in Ht2 as (t0 & Hobs2 & Ht0).
    eapply trace_tau; [exact Hobs2|]. apply IH. by symmetry.
  - assert (Ht2 : eq_itree eq t2 (Vis e k)).
    { rewrite <- Heq. rewrite (itree_eta t), Hobs. reflexivity. }
    apply eqitree_inv_Vis_r in Ht2 as (k' & Hobs2 & Hk).
    eapply trace_vis; [exact Hobs2|]. apply IH. by symmetry.
Qed.

Lemma signals_cons o tr :
  signals (o :: tr) = ((if is_signal o then 1 else 0) + signals tr)%nat.
Proof. unfold signals. cbn. by destruct (is_signal o). Qed.

Lemma notifications_cons o tr :
  notifications (o :: tr)
  = ((if is_notification o then 1 else 0) + notifications tr)%nat.
Proof. unfold notifications. cbn. by destruct (is_notification o). Qed.

Ltac count_trace :=
  rewrite ?signals_cons, ?notifications_cons; unfold signals, notifications;
  cbn; lia.

(** From the head of the v3 loop on: every notification taken so far has
    been signalled, but possibly the last one. *)
Lemma clientv3_loop_paced watch ch :
  forall n tr,
    (length tr <= n)%nat ->
    trace_of (ITree.iter (clientv3.WatchPrefix_body watch ch) tt) tr ->
    (signals tr <= notifications tr <= signals tr + 1)%nat.
Proof.
  induction n as [|n IH]; intros tr Hlen Htr.
  { destruct tr; [count_trace|cbn in Hlen; lia]. }
  apply (trace_of_eq_itree _ _ _ (proj1 watch_loops_unfold watch ch)) in Htr.
  apply trace_of_inv in Htr as [->|Htr]; [count_trace|]. cbn in Htr.
  destruct Htr as ([resp|] & tr1 & -> & Htr1).
  - apply trace_of_inv in Htr1 as [->|Htr1]; [count_trace|]. cbn in Htr1.
    destruct Htr1 as ([] & tr2 & -> & Htr2).
    apply trace_of_inv in Htr2 as [->|Htr2]; [count_trace|]. cbn in Htr2.
    cbn in Hlen. specialize (IH tr2 ltac:(lia) Htr2).
    rewrite !signals_cons, !notifications_cons. cbn. lia.
  - apply trace_of_inv in Htr1 as [->|Htr1]; [count_trace|]. cbn in Htr1.
    contradiction.
Qed.

Lemma client_loop_paced c watch ch :
  forall n tr,
    (length tr <= n)%nat ->
    trace_of (ITree.iter (client.WatchPrefix_body c watch ch) tt) tr ->
    (signals tr <= notifications tr <= signals tr + 1)%nat.
Proof.
  induction n as [|n IH]; intros tr Hlen Htr.
  { destruct tr; [count_trace|cbn in Hlen; lia]. }
  apply (trace_of_eq_itree _ _ _ (proj2 watch_loops_unfold c watch ch)) in Htr.
  apply trace_of_inv in Htr as [->|Htr]; [count_trace|]. cbn in Htr.
  destruct Htr as ([resp|err] & tr1 & -> & Htr1).
  - apply trace_of_inv in Htr1 as [->|Htr1]; [count_trace|]. cbn in Htr1.
    destruct Htr1 as ([] & tr2 & -> & Htr2).
    apply trace_of_inv in Htr2 as [->|Htr2]; [count_trace|]. cbn in Htr2.
    cbn in Hlen. specialize (IH tr2 ltac:(lia) Htr2).
    rewrite !signals_cons, !notifications_cons. cbn. lia.
  - apply trace_of_inv in Htr1 as [->|Htr1]; [count_trace|]. cbn in Htr1.
    contradiction.
Qed.

(** X13. At every point of every run of a watch on a client with a
    connection, whatever the store and the receiver do and however long
    the run is: the signals sent are at least as many as the notifications
    taken, and at most one more. So the sentinel is sent before the first
    notification is taken, no notification is taken while the signal for
    the one before is still to be sent, and no signal is sent without a
    notification but the sentinel. *)
Theorem watch_signals_keep_pace :
  forall (prefix : string) (ch : chan) (tr : list occurrence),
    (forall cl ctx timeout,
        trace_of (clientv3.WatchPrefix (clientv3.mk (Some cl) ctx timeout) prefix ch) tr ->
        (notifications tr <= signals tr <= notifications tr + 1)%nat)
    /\ (forall api ctx,
           trace_of (client.WatchPrefix (client.mk (Some api) ctx) prefix ch) tr ->
           (notifications tr <= signals tr <= notifications tr + 1)%nat).
Proof.
  intros prefix ch tr. split.
  - intros cl ctx timeout Htr.
    apply (trace_of_eq_itree _ _ _
             (proj1 WatchPrefix_first_events cl ctx timeout prefix ch)) in Htr.
    apply trace_of_inv in Htr as [->|Htr]; [count_trace|]. cbn in Htr.
    destruct Htr as (watch & tr1 & -> & Htr1).
    apply trace_of_inv in Htr1 as [->|Htr1]; [count_trace|]. cbn in Htr1.
    destruct Htr1 as ([] & tr2 & -> & Htr2).
    pose proof (clientv3_loop_paced watch ch (length tr2) tr2 ltac:(lia) Htr2).
    rewrite !signals_cons, !notifications_cons. cbn. lia.
  - intros api ctx Htr.
    apply (trace_of_eq_itree _ _ _
             (proj2 WatchPrefix_first_events api ctx prefix ch)) in Htr.
    apply trace_of_inv in Htr as [->|Htr]; [count_trace|]. cbn in Htr.
    destruct Htr as (watch & tr1 & -> & Htr1).
    apply trace_of_inv in Htr1 as [->|Htr1]; [count_trace|]. cbn in Htr1.
    destruct Htr1 as ([] & tr2 & -> & Htr2).
    pose proof (client_loop_paced _ watch ch (length tr2) tr2 ltac:(lia) Htr2).
    rewrite !signals_cons, !notifications_cons. cbn. lia.
Qed.

Lemma sample_run_is_a_run :
  trace_of
    (clientv3.WatchPrefix (clientv3.mk (Some sample_conn) Background defaultTTL)
       "/services" (mkChan 1))
    sample_run.
Proof.
  eapply trace_of_eq_itree.
  { symmetry. apply (proj1 WatchPrefix_first_events). }
  eapply trace_vis; [reflexivity|]. eapply trace_vis; [reflexivity|].
  eapply trace_of_eq_itree.
  { symmetry. apply (proj1 watch_loops_unfold). }
  eapply trace_vis; [reflexivity|]. cbn.
  eapply trace_vis; [reflexivity|]. constructor.
Defined.

Lemma watch_signals_keep_pace_witness :
  (notifications sample_run <= signals sample_run <= notifications sample_run + 1)%nat.
Proof.
  apply (proj1 (watch_signals_keep_pace "/services" (mkChan 1) sample_run)
           sample_conn Background defaultTTL).
  apply sample_run_is_a_run.
Defined.
